(** * Page classification and pricing of smeta-mu-analyzer ([main.py])

    A shallow embedding of the page-classification engine: the formula,
    footnote, special-script and table detectors, the priority pipeline
    [_analyze_single_page], the per-document loop [analyze] and the batch
    aggregation of [batch_process_directory].

    Python values are modelled as follows.
    - [str] is a list of Unicode code points ([list N]); literals are written
      in UTF-8 and decoded by [U].
    - [re] patterns are terms of [regex], run by a backtracking matcher with
      the priorities of Python's engine (greedy repetition, ordered
      alternation, leftmost search).
    - [float] is IEEE binary64 ([PrimFloat]); an [int] that meets a float is
      converted first (exact below 2^53, which bounds every count here).
      The builtin [sum] over floats is the one of the interpreter
      ([CPython]): the table classifier and what calls it take the
      interpreter as a parameter, and what is proved holds for both.
    - A call that may raise returns [exc]; [try]/[except] is a [match]. *)

From Stdlib Require Import String Ascii DecimalString.
From Stdlib Require Import NArith ZArith List Bool Lia Arith.
From Stdlib Require Import Permutation.
From Stdlib Require Import PrimFloat Uint63.
Import ListNotations.

Set Implicit Arguments.

(* ================================================================= *)
(** ** Python strings *)

Definition str := list N.

(** Decoder for UTF-8 literals: [need] continuation bytes are still
    expected for the code point accumulated in [acc]. *)
Fixpoint utf8_decode (bs : list N) (need : nat) (acc : N) : str :=
  match bs with
  | [] => []
  | b :: tl =>
      match need with
      | S n =>
          let acc' := (acc * 64 + b mod 64)%N in
          match n with
          | O => acc' :: utf8_decode tl 0 0%N
          | S _ => utf8_decode tl n acc'
          end
      | O =>
          if (b <? 128)%N then b :: utf8_decode tl 0 0%N
          else if (b <? 224)%N then utf8_decode tl 1 (b - 192)%N
          else if (b <? 240)%N then utf8_decode tl 2 (b - 224)%N
          else utf8_decode tl 3 (b - 240)%N
      end
  end.

Definition U (s : string) : str :=
  utf8_decode (map N_of_ascii (list_ascii_of_string s)) 0 0%N.

Fixpoint str_eqb (a b : str) : bool :=
  match a, b with
  | [], [] => true
  | x :: a', y :: b' => N.eqb x y && str_eqb a' b'
  | _, _ => false
  end.

Definition in_ranges (rs : list (N * N)) (c : N) : bool :=
  existsb (fun r => (fst r <=? c)%N && (c <=? snd r)%N) rs.

(** Code points for which [str.isspace] holds; the same set is matched by [\s] in a [str] pattern. *)
Definition unicode_whitespace : list (N * N) :=
  [(9,13); (28,32); (133,133); (160,160); (5760,5760); (8192,8202); (8232,8233); (8239,8239);
   (8287,8287); (12288,12288)]%N.

(** Code points of general category Nd ([str.isdecimal]); the set matched by [\d] in a [str] pattern. *)
Definition unicode_decimal : list (N * N) :=
  [(48,57); (1632,1641); (1776,1785); (1984,1993); (2406,2415); (2534,2543); (2662,2671);
   (2790,2799); (2918,2927); (3046,3055); (3174,3183); (3302,3311); (3430,3439); (3558,3567);
   (3664,3673); (3792,3801); (3872,3881); (4160,4169); (4240,4249); (6112,6121); (6160,6169);
   (6470,6479); (6608,6617); (6784,6793); (6800,6809); (6992,7001); (7088,7097); (7232,7241);
   (7248,7257); (42528,42537); (43216,43225); (43264,43273); (43472,43481); (43504,43513);
   (43600,43609); (44016,44025); (65296,65305); (66720,66729); (68912,68921); (69734,69743);
   (69872,69881); (69942,69951); (70096,70105); (70384,70393); (70736,70745); (70864,70873);
   (71248,71257); (71360,71369); (71472,71481); (71904,71913); (72016,72025); (72784,72793);
   (73040,73049); (73120,73129); (92768,92777); (92864,92873); (93008,93017); (120782,120831);
   (123200,123209); (123632,123641); (125264,125273); (130032,130041)]%N.

(** Code points for which [str.isdigit] holds (Nd together with the other digit characters, such as superscripts). *)
Definition unicode_digit : list (N * N) :=
  [(48,57); (178,179); (185,185); (1632,1641); (1776,1785); (1984,1993); (2406,2415);
   (2534,2543); (2662,2671); (2790,2799); (2918,2927); (3046,3055); (3174,3183); (3302,3311);
   (3430,3439); (3558,3567); (3664,3673); (3792,3801); (3872,3881); (4160,4169); (4240,4249);
   (4969,4977); (6112,6121); (6160,6169); (6470,6479); (6608,6618); (6784,6793); (6800,6809);
   (6992,7001); (7088,7097); (7232,7241); (7248,7257); (8304,8304); (8308,8313); (8320,8329);
   (9312,9320); (9332,9340); (9352,9360); (9450,9450); (9461,9469); (9471,9471); (10102,10110);
   (10112,10120); (10122,10130); (42528,42537); (43216,43225); (43264,43273); (43472,43481);
   (43504,43513); (43600,43609); (44016,44025); (65296,65305); (66720,66729); (68160,68163);
   (68912,68921); (69216,69224); (69714,69722); (69734,69743); (69872,69881); (69942,69951);
   (70096,70105); (70384,70393); (70736,70745); (70864,70873); (71248,71257); (71360,71369);
   (71472,71481); (71904,71913); (72016,72025); (72784,72793); (73040,73049); (73120,73129);
   (92768,92777); (92864,92873); (93008,93017); (120782,120831); (123200,123209);
   (123632,123641); (125264,125273); (127232,127242); (130032,130041)]%N.

(** Code points for which [str.isalnum] holds; [\w] matches these and the underscore. *)
Definition unicode_alnum : list (N * N) :=
  [(48,57); (65,90); (97,122); (170,170); (178,179); (181,181); (185,186); (188,190); (192,214);
   (216,246); (248,705); (710,721); (736,740); (748,748); (750,750); (880,884); (886,887);
   (890,893); (895,895); (902,902); (904,906); (908,908); (910,929); (931,1013); (1015,1153);
   (1162,1327); (1329,1366); (1369,1369); (1376,1416); (1488,1514); (1519,1522); (1568,1610);
   (1632,1641); (1646,1647); (1649,1747); (1749,1749); (1765,1766); (1774,1788); (1791,1791);
   (1808,1808); (1810,1839); (1869,1957); (1969,1969); (1984,2026); (2036,2037); (2042,2042);
   (2048,2069); (2074,2074); (2084,2084); (2088,2088); (2112,2136); (2144,2154); (2160,2183);
   (2185,2190); (2208,2249); (2308,2361); (2365,2365); (2384,2384); (2392,2401); (2406,2415);
   (2417,2432); (2437,2444); (2447,2448); (2451,2472); (2474,2480); (2482,2482); (2486,2489);
   (2493,2493); (2510,2510); (2524,2525); (2527,2529); (2534,2545); (2548,2553); (2556,2556);
   (2565,2570); (2575,2576); (2579,2600); (2602,2608); (2610,2611); (2613,2614); (2616,2617);
   (2649,2652); (2654,2654); (2662,2671); (2674,2676); (2693,2701); (2703,2705); (2707,2728);
   (2730,2736); (2738,2739); (2741,2745); (2749,2749); (2768,2768); (2784,2785); (2790,2799);
   (2809,2809); (2821,2828); (2831,2832); (2835,2856); (2858,2864); (2866,2867); (2869,2873);
   (2877,2877); (2908,2909); (2911,2913); (2918,2927); (2929,2935); (2947,2947); (2949,2954);
   (2958,2960); (2962,2965); (2969,2970); (2972,2972); (2974,2975); (2979,2980); (2984,2986);
   (2990,3001); (3024,3024); (3046,3058); (3077,3084); (3086,3088); (3090,3112); (3114,3129);
   (3133,3133); (3160,3162); (3165,3165); (3168,3169); (3174,3183); (3192,3198); (3200,3200);
   (3205,3212); (3214,3216); (3218,3240); (3242,3251); (3253,3257); (3261,3261); (3293,3294);
   (3296,3297); (3302,3311); (3313,3314); (3332,3340); (3342,3344); (3346,3386); (3389,3389);
   (3406,3406); (3412,3414); (3416,3425); (3430,3448); (3450,3455); (3461,3478); (3482,3505);
   (3507,3515); (3517,3517); (3520,3526); (3558,3567); (3585,3632); (3634,3635); (3648,3654);
   (3664,3673); (3713,3714); (3716,3716); (3718,3722); (3724,3747); (3749,3749); (3751,3760);
   (3762,3763); (3773,3773); (3776,3780); (3782,3782); (3792,3801); (3804,3807); (3840,3840);
   (3872,3891); (3904,3911); (3913,3948); (3976,3980); (4096,4138); (4159,4169); (4176,4181);
   (4186,4189); (4193,4193); (4197,4198); (4206,4208); (4213,4225); (4238,4238); (4240,4249);
   (4256,4293); (4295,4295); (4301,4301); (4304,4346); (4348,4680); (4682,4685); (4688,4694);
   (4696,4696); (4698,4701); (4704,4744); (4746,4749); (4752,4784); (4786,4789); (4792,4798);
   (4800,4800); (4802,4805); (4808,4822); (4824,4880); (4882,4885); (4888,4954); (4969,4988);
   (4992,5007); (5024,5109); (5112,5117); (5121,5740); (5743,5759); (5761,5786); (5792,5866);
   (5870,5880); (5888,5905); (5919,5937); (5952,5969); (5984,5996); (5998,6000); (6016,6067);
   (6103,6103); (6108,6108); (6112,6121); (6128,6137); (6160,6169); (6176,6264); (6272,6276);
   (6279,6312); (6314,6314); (6320,6389); (6400,6430); (6470,6509); (6512,6516); (6528,6571);
   (6576,6601); (6608,6618); (6656,6678); (6688,6740); (6784,6793); (6800,6809); (6823,6823);
   (6917,6963); (6981,6988); (6992,7001); (7043,7072); (7086,7141); (7168,7203); (7232,7241);
   (7245,7293); (7296,7304); (7312,7354); (7357,7359); (7401,7404); (7406,7411); (7413,7414);
   (7418,7418); (7424,7615); (7680,7957); (7960,7965); (7968,8005); (8008,8013); (8016,8023);
   (8025,8025); (8027,8027); (8029,8029); (8031,8061); (8064,8116); (8118,8124); (8126,8126);
   (8130,8132); (8134,8140); (8144,8147); (8150,8155); (8160,8172); (8178,8180); (8182,8188);
   (8304,8305); (8308,8313); (8319,8329); (8336,8348); (8450,8450); (8455,8455); (8458,8467);
   (8469,8469); (8473,8477); (8484,8484); (8486,8486); (8488,8488); (8490,8493); (8495,8505);
   (8508,8511); (8517,8521); (8526,8526); (8528,8585); (9312,9371); (9450,9471); (10102,10131);
   (11264,11492); (11499,11502); (11506,11507); (11517,11517); (11520,11557); (11559,11559);
   (11565,11565); (11568,11623); (11631,11631); (11648,11670); (11680,11686); (11688,11694);
   (11696,11702); (11704,11710); (11712,11718); (11720,11726); (11728,11734); (11736,11742);
   (11823,11823); (12293,12295); (12321,12329); (12337,12341); (12344,12348); (12353,12438);
   (12445,12447); (12449,12538); (12540,12543); (12549,12591); (12593,12686); (12690,12693);
   (12704,12735); (12784,12799); (12832,12841); (12872,12879); (12881,12895); (12928,12937);
   (12977,12991); (13312,19903); (19968,42124); (42192,42237); (42240,42508); (42512,42539);
   (42560,42606); (42623,42653); (42656,42735); (42775,42783); (42786,42888); (42891,42954);
   (42960,42961); (42963,42963); (42965,42969); (42994,43009); (43011,43013); (43015,43018);
   (43020,43042); (43056,43061); (43072,43123); (43138,43187); (43216,43225); (43250,43255);
   (43259,43259); (43261,43262); (43264,43301); (43312,43334); (43360,43388); (43396,43442);
   (43471,43481); (43488,43492); (43494,43518); (43520,43560); (43584,43586); (43588,43595);
   (43600,43609); (43616,43638); (43642,43642); (43646,43695); (43697,43697); (43701,43702);
   (43705,43709); (43712,43712); (43714,43714); (43739,43741); (43744,43754); (43762,43764);
   (43777,43782); (43785,43790); (43793,43798); (43808,43814); (43816,43822); (43824,43866);
   (43868,43881); (43888,44002); (44016,44025); (44032,55203); (55216,55238); (55243,55291);
   (63744,64109); (64112,64217); (64256,64262); (64275,64279); (64285,64285); (64287,64296);
   (64298,64310); (64312,64316); (64318,64318); (64320,64321); (64323,64324); (64326,64433);
   (64467,64829); (64848,64911); (64914,64967); (65008,65019); (65136,65140); (65142,65276);
   (65296,65305); (65313,65338); (65345,65370); (65382,65470); (65474,65479); (65482,65487);
   (65490,65495); (65498,65500); (65536,65547); (65549,65574); (65576,65594); (65596,65597);
   (65599,65613); (65616,65629); (65664,65786); (65799,65843); (65856,65912); (65930,65931);
   (66176,66204); (66208,66256); (66273,66299); (66304,66339); (66349,66378); (66384,66421);
   (66432,66461); (66464,66499); (66504,66511); (66513,66517); (66560,66717); (66720,66729);
   (66736,66771); (66776,66811); (66816,66855); (66864,66915); (66928,66938); (66940,66954);
   (66956,66962); (66964,66965); (66967,66977); (66979,66993); (66995,67001); (67003,67004);
   (67072,67382); (67392,67413); (67424,67431); (67456,67461); (67463,67504); (67506,67514);
   (67584,67589); (67592,67592); (67594,67637); (67639,67640); (67644,67644); (67647,67669);
   (67672,67702); (67705,67742); (67751,67759); (67808,67826); (67828,67829); (67835,67867);
   (67872,67897); (67968,68023); (68028,68047); (68050,68096); (68112,68115); (68117,68119);
   (68121,68149); (68160,68168); (68192,68222); (68224,68255); (68288,68295); (68297,68324);
   (68331,68335); (68352,68405); (68416,68437); (68440,68466); (68472,68497); (68521,68527);
   (68608,68680); (68736,68786); (68800,68850); (68858,68899); (68912,68921); (69216,69246);
   (69248,69289); (69296,69297); (69376,69415); (69424,69445); (69457,69460); (69488,69505);
   (69552,69579); (69600,69622); (69635,69687); (69714,69743); (69745,69746); (69749,69749);
   (69763,69807); (69840,69864); (69872,69881); (69891,69926); (69942,69951); (69956,69956);
   (69959,69959); (69968,70002); (70006,70006); (70019,70066); (70081,70084); (70096,70106);
   (70108,70108); (70113,70132); (70144,70161); (70163,70187); (70272,70278); (70280,70280);
   (70282,70285); (70287,70301); (70303,70312); (70320,70366); (70384,70393); (70405,70412);
   (70415,70416); (70419,70440); (70442,70448); (70450,70451); (70453,70457); (70461,70461);
   (70480,70480); (70493,70497); (70656,70708); (70727,70730); (70736,70745); (70751,70753);
   (70784,70831); (70852,70853); (70855,70855); (70864,70873); (71040,71086); (71128,71131);
   (71168,71215); (71236,71236); (71248,71257); (71296,71338); (71352,71352); (71360,71369);
   (71424,71450); (71472,71483); (71488,71494); (71680,71723); (71840,71922); (71935,71942);
   (71945,71945); (71948,71955); (71957,71958); (71960,71983); (71999,71999); (72001,72001);
   (72016,72025); (72096,72103); (72106,72144); (72161,72161); (72163,72163); (72192,72192);
   (72203,72242); (72250,72250); (72272,72272); (72284,72329); (72349,72349); (72368,72440);
   (72704,72712); (72714,72750); (72768,72768); (72784,72812); (72818,72847); (72960,72966);
   (72968,72969); (72971,73008); (73030,73030); (73040,73049); (73056,73061); (73063,73064);
   (73066,73097); (73112,73112); (73120,73129); (73440,73458); (73648,73648); (73664,73684);
   (73728,74649); (74752,74862); (74880,75075); (77712,77808); (77824,78894); (82944,83526);
   (92160,92728); (92736,92766); (92768,92777); (92784,92862); (92864,92873); (92880,92909);
   (92928,92975); (92992,92995); (93008,93017); (93019,93025); (93027,93047); (93053,93071);
   (93760,93846); (93952,94026); (94032,94032); (94099,94111); (94176,94177); (94179,94179);
   (94208,100343); (100352,101589); (101632,101640); (110576,110579); (110581,110587);
   (110589,110590); (110592,110882); (110928,110930); (110948,110951); (110960,111355);
   (113664,113770); (113776,113788); (113792,113800); (113808,113817); (119520,119539);
   (119648,119672); (119808,119892); (119894,119964); (119966,119967); (119970,119970);
   (119973,119974); (119977,119980); (119982,119993); (119995,119995); (119997,120003);
   (120005,120069); (120071,120074); (120077,120084); (120086,120092); (120094,120121);
   (120123,120126); (120128,120132); (120134,120134); (120138,120144); (120146,120485);
   (120488,120512); (120514,120538); (120540,120570); (120572,120596); (120598,120628);
   (120630,120654); (120656,120686); (120688,120712); (120714,120744); (120746,120770);
   (120772,120779); (120782,120831); (122624,122654); (123136,123180); (123191,123197);
   (123200,123209); (123214,123214); (123536,123565); (123584,123627); (123632,123641);
   (124896,124902); (124904,124907); (124909,124910); (124912,124926); (124928,125124);
   (125127,125135); (125184,125251); (125259,125259); (125264,125273); (126065,126123);
   (126125,126127); (126129,126132); (126209,126253); (126255,126269); (126464,126467);
   (126469,126495); (126497,126498); (126500,126500); (126503,126503); (126505,126514);
   (126516,126519); (126521,126521); (126523,126523); (126530,126530); (126535,126535);
   (126537,126537); (126539,126539); (126541,126543); (126545,126546); (126548,126548);
   (126551,126551); (126553,126553); (126555,126555); (126557,126557); (126559,126559);
   (126561,126562); (126564,126564); (126567,126570); (126572,126578); (126580,126583);
   (126585,126588); (126590,126590); (126592,126601); (126603,126619); (126625,126627);
   (126629,126633); (126635,126651); (127232,127244); (130032,130041); (131072,173791);
   (173824,177976); (177984,178205); (178208,183969); (183984,191456); (194560,195101);
   (196608,201546)]%N.

Definition isspace (c : N) : bool := in_ranges unicode_whitespace c.
Definition isdecimal (c : N) : bool := in_ranges unicode_decimal c.
Definition isdigit (c : N) : bool := in_ranges unicode_digit c.
(** [\w]: alphanumeric or underscore. *)
Definition isword (c : N) : bool := in_ranges unicode_alnum c || (c =? 95)%N.

(** [str.lower], character by character.  Only the letters that lowercase
    into the alphabet of [tabular_words] (Latin and Russian capitals) are
    mapped; no other character lowercases to a Russian small letter, so the
    [word in all_text.lower()] tests of [_is_valid_table] are unaffected. *)
Definition lower_char (c : N) : N :=
  if (65 <=? c)%N && (c <=? 90)%N then (c + 32)%N
  else if (1040 <=? c)%N && (c <=? 1071)%N then (c + 32)%N
  else if (1024 <=? c)%N && (c <=? 1039)%N then (c + 80)%N
  else c.

Definition lower (s : str) : str := map lower_char s.

Fixpoint lstrip (s : str) : str :=
  match s with
  | c :: tl => if isspace c then lstrip tl else s
  | [] => []
  end.

Definition rstrip (s : str) : str := rev (lstrip (rev s)).

(** [s.strip()] *)
Definition strip (s : str) : str := rstrip (lstrip s).

Fixpoint startswith (s p : str) : bool :=
  match p, s with
  | [], _ => true
  | x :: p', y :: s' => N.eqb x y && startswith s' p'
  | _ :: _, [] => false
  end.

(** [a in b] for strings: [a] occurs in [b] as a contiguous substring. *)
Fixpoint str_in (a b : str) : bool :=
  startswith b a ||
  match b with
  | [] => false
  | _ :: b' => str_in a b'
  end.

(** [s.split(sep)] for a one-character separator. *)
Fixpoint split_char (sep : N) (s : str) : list str :=
  match s with
  | [] => [[]]
  | c :: tl =>
      if N.eqb c sep then [] :: split_char sep tl
      else match split_char sep tl with
           | w :: ws => (c :: w) :: ws
           | [] => [[c]]
           end
  end.

(** [s.split()]: the maximal runs of non-whitespace characters. *)
Fixpoint split_ws_go (s : str) (cur : str) : list str :=
  match s with
  | [] => match cur with [] => [] | _ => [rev cur] end
  | c :: tl =>
      if isspace c
      then match cur with [] => split_ws_go tl [] | _ => rev cur :: split_ws_go tl [] end
      else split_ws_go tl (c :: cur)
  end.

Definition split_ws (s : str) : list str := split_ws_go s [].

(** [sep.join(l)] *)
Fixpoint join (sep : str) (l : list str) : str :=
  match l with
  | [] => []
  | [x] => x
  | x :: tl => x ++ sep ++ join sep tl
  end.

(** Truth value of an optional string: [None] and the empty string are falsy. *)
Definition truthy (cell : option str) : bool :=
  match cell with
  | Some (_ :: _) => true
  | _ => false
  end.

(* ================================================================= *)
(** ** Regular expressions ([re])

    Only the constructs that the patterns of [main.py] use.  Bounded and
    optional repetition are derived forms. *)

Inductive regex : Type :=
| Eps
| Chr (p : N -> bool)         (* one character of a class *)
| Cat (a b : regex)           (* a followed by b *)
| Alt (a b : regex)           (* a|b, a tried first *)
| Star (a : regex)            (* a*, greedy *)
| Group (g : nat) (a : regex) (* capturing group number g *)
| Bol                         (* ^ (no MULTILINE flag is used) *)
| WordB.                      (* \b *)

Definition Plus (a : regex) : regex := Cat a (Star a).
Definition Opt (a : regex) : regex := Alt a Eps.

(** [a{n}] *)
Fixpoint rep_exact (n : nat) (a : regex) : regex :=
  match n with
  | O => Eps
  | S n' => Cat a (rep_exact n' a)
  end.

(** [a{0,n}], longest first *)
Fixpoint rep_upto (n : nat) (a : regex) : regex :=
  match n with
  | O => Eps
  | S n' => Opt (Cat a (rep_upto n' a))
  end.

(** [a{lo,}] and [a{lo,hi}] *)
Definition rep_min (lo : nat) (a : regex) : regex := Cat (rep_exact lo a) (Star a).
Definition rep_range (lo hi : nat) (a : regex) : regex :=
  Cat (rep_exact lo a) (rep_upto (hi - lo) a).

Fixpoint seq (l : list regex) : regex :=
  match l with
  | [] => Eps
  | [a] => a
  | a :: tl => Cat a (seq tl)
  end.

(** A literal string. *)
Definition lit (s : string) : regex := seq (map (fun c => Chr (N.eqb c)) (U s)).

(** The body of a bracketed class, in the syntax of the source: [a-z] is a
    range, [\s] is whitespace, [\x] is the character x, anything else
    stands for itself. *)
Fixpoint cls_match (l : list N) (c : N) : bool :=
  match l with
  | [] => false
  | 92%N :: 115%N :: tl => isspace c || cls_match tl c
  | 92%N :: x :: tl => N.eqb c x || cls_match tl c
  | a :: 45%N :: b :: tl => ((a <=? c)%N && (c <=? b)%N) || cls_match tl c
  | a :: tl => N.eqb c a || cls_match tl c
  end.

Definition cls (body : string) : regex := Chr (cls_match (U body)).
Definition ncls (body : string) : regex := Chr (fun c => negb (cls_match (U body) c)).

(** Position in the subject: offset, the character just before it (for
    [\b]) and the characters still to read. *)
Record cursor : Type := { pos : nat; prev : option N; rest : str }.

(** The text matched by each group that has taken part in the match. *)
Definition caps := list (nat * str).

(** The characters read between the cursors [s] and [s']. *)
Definition consumed (s s' : cursor) : str :=
  firstn (length (rest s) - length (rest s')) (rest s).

Definition is_word_opt (c : option N) : bool :=
  match c with
  | Some x => isword x
  | None => false
  end.

Definition step (s : cursor) (x : N) (tl : str) : cursor :=
  {| pos := S (pos s); prev := Some x; rest := tl |}.

Section Matcher.

(** The type of what a successful match returns. *)
Variable R : Type.

Definition cont := cursor -> caps -> option R.

(** The loop of a greedy [a*]: one more iteration of [body] first, the
    continuation [k] when that fails.  An iteration must consume at least
    one character, so [n], the number of characters left, bounds the
    iterations. *)
Fixpoint star_loop (body : cursor -> caps -> cont -> option R) (k : cont)
                   (n : nat) (s : cursor) (c : caps) {struct n} : option R :=
  match n with
  | O => k s c
  | S n' =>
      match body s c (fun s' c' =>
                        if length (rest s') <? length (rest s)
                        then star_loop body k n' s' c' else None) with
      | Some v => Some v
      | None => k s c
      end
  end.

(** Backtracking matcher in continuation-passing style: [k] receives the
    cursor and the groups after [r] has matched, and its failure makes
    [r] try its next alternative. *)
Fixpoint rx (r : regex) (s : cursor) (c : caps) (k : cont) {struct r} : option R :=
  match r with
  | Eps => k s c
  | Chr p =>
      match rest s with
      | x :: tl => if p x then k (step s x tl) c else None
      | [] => None
      end
  | Cat a b => rx a s c (fun s' c' => rx b s' c' k)
  | Alt a b =>
      match rx a s c k with
      | Some v => Some v
      | None => rx b s c k
      end
  | Star a => star_loop (rx a) k (length (rest s)) s c
  | Group g a => rx a s c (fun s' c' => k s' ((g, consumed s s') :: c'))
  | Bol => if pos s =? 0 then k s c else None
  | WordB =>
      if xorb (is_word_opt (prev s)) (is_word_opt (hd_error (rest s))) then k s c else None
  end.

End Matcher.

Record mres : Type := { m_start : nat; m_end : nat; m_caps : caps }.

Definition match_here (r : regex) (s : cursor) : option mres :=
  rx r s [] (fun s' c' => Some {| m_start := pos s; m_end := pos s'; m_caps := c' |}).

(** Leftmost match at or after the cursor. *)
Fixpoint search_from (r : regex) (p : nat) (pv : option N) (s : str) : option mres :=
  match match_here r {| pos := p; prev := pv; rest := s |} with
  | Some m => Some m
  | None =>
      match s with
      | [] => None
      | x :: tl => search_from r (S p) (Some x) tl
      end
  end.

(** [pattern.search(text)] as a truth value. *)
Definition re_search (r : regex) (text : str) : bool :=
  match search_from r 0 None text with
  | Some _ => true
  | None => false
  end.

(** [re.match(pattern, text)] *)
Definition re_match (r : regex) (text : str) : option mres :=
  match_here r {| pos := 0; prev := None; rest := text |}.

(** [m.group(g)] *)
Definition group (m : mres) (g : nat) : option str :=
  match find (fun e => fst e =? g) (m_caps m) with
  | Some (_, matched) => Some matched
  | None => None
  end.

(** Move the cursor [k] characters forward. *)
Fixpoint advance (k : nat) (s : cursor) : cursor :=
  match k with
  | O => s
  | S k' =>
      match rest s with
      | [] => s
      | x :: tl => advance k' (step s x tl)
      end
  end.

(** [pattern.finditer(text)]: successive non-overlapping matches.  After an
    empty match the scan resumes one character further. *)
Fixpoint finditer_from (fuel : nat) (r : regex) (s : cursor) : list mres :=
  match fuel with
  | O => []
  | S fuel' =>
      match search_from r (pos s) (prev s) (rest s) with
      | None => []
      | Some m =>
          let s' := advance (m_end m - pos s) s in
          if m_end m =? m_start m
          then m :: match rest s' with
                    | [] => []
                    | _ :: _ => finditer_from fuel' r (advance 1 s')
                    end
          else m :: finditer_from fuel' r s'
      end
  end.

Definition finditer (r : regex) (text : str) : list mres :=
  finditer_from (S (length text)) r {| pos := 0; prev := None; rest := text |}.

(** [re.sub(pattern, repl, text)] for a replacement without group references. *)
Fixpoint sub_from (ms : list mres) (p : nat) (s : str) (repl : str) : str :=
  match ms with
  | [] => s
  | m :: tl =>
      firstn (m_start m - p) s ++ repl ++ sub_from tl (m_end m) (skipn (m_end m - p) s) repl
  end.

Definition re_sub (r : regex) (repl : str) (text : str) : str :=
  sub_from (finditer r text) 0 text repl.

(* ================================================================= *)
(** ** Text detectors *)

Definition ws : regex := Chr isspace.      (* \s *)
Definition digit : regex := Chr isdecimal. (* \d *)

(** [FORMULA_PATTERNS] *)
Definition FORMULA_PATTERNS : list regex :=
  [ (* [∑∫∏√±×÷≤≥≠∞∂∇] *)
    cls "∑∫∏√±×÷≤≥≠∞∂∇";
    (* [α-ωΑ-Ω] *)
    cls "α-ωΑ-Ω";
    (* \$[a-zA-Z0-9+\-*/=\(\)\s]{2,}\$ *)
    seq [lit "$"; rep_min 2 (cls "a-zA-Z0-9+\-*/=\(\)\s"); lit "$"];
    (* \\begin{equation} *)
    lit "\begin{equation}";
    (* [a-zA-Z]+\([a-zA-Z0-9,\s]+\) *)
    seq [Plus (cls "a-zA-Z"); lit "("; Plus (cls "a-zA-Z0-9,\s"); lit ")"];
    (* [a-zA-Z]\([a-zA-Z0-9,\s]*\) *)
    seq [cls "a-zA-Z"; lit "("; Star (cls "a-zA-Z0-9,\s"); lit ")"];
    (* \b[a-zA-Z]{1,3}_[a-zA-Z0-9]{1,3}\b *)
    seq [WordB; rep_range 1 3 (cls "a-zA-Z"); lit "_"; rep_range 1 3 (cls "a-zA-Z0-9"); WordB];
    (* \^[0-9]+|\^{[^}]+} *)
    Alt (seq [lit "^"; Plus (cls "0-9")])
        (seq [lit "^{"; Plus (ncls "}"); lit "}"]);
    (* рН\s*=\s*[0-9]+([,\.][0-9]+)?(\s*[–-]\s*[0-9]+([,\.][0-9]+)?)?   (Cyrillic letters) *)
    seq [lit "рН"; Star ws; lit "="; Star ws; Plus (cls "0-9");
         Opt (Group 1 (seq [cls ",\."; Plus (cls "0-9")]));
         Opt (Group 2 (seq [Star ws; cls "–-"; Star ws; Plus (cls "0-9");
                            Opt (Group 3 (seq [cls ",\."; Plus (cls "0-9")]))]))];
    (* pH\s*=\s*[0-9]+([,\.][0-9]+)?(\s*[–-]\s*[0-9]+([,\.][0-9]+)?)?   (Latin letters) *)
    seq [lit "pH"; Star ws; lit "="; Star ws; Plus (cls "0-9");
         Opt (Group 1 (seq [cls ",\."; Plus (cls "0-9")]));
         Opt (Group 2 (seq [Star ws; cls "–-"; Star ws; Plus (cls "0-9");
                            Opt (Group 3 (seq [cls ",\."; Plus (cls "0-9")]))]))] ].

(** \(\s*[a-zA-Z0-9,\s]*\s*\)\s*\n\s*[a-zA-Z]\s+[a-zA-Z0-9,\s]* *)
Definition multiline_func_pattern : regex :=
  seq [lit "("; Star ws; Star (cls "a-zA-Z0-9,\s"); Star ws; lit ")"; Star ws;
       Chr (N.eqb 10); Star ws; cls "a-zA-Z"; Plus ws; Star (cls "a-zA-Z0-9,\s")].

Definition _has_formulas (text : str) : bool :=
  let cleaned_text := re_sub (Plus ws) (U " ") (strip text) in
  existsb (fun pattern => re_search pattern text || re_search pattern cleaned_text)
          FORMULA_PATTERNS
  || re_search multiline_func_pattern text.

(** [SPECIAL_CHARS_PATTERN]: [一-鿿؀-ۿ]+ *)
Definition SPECIAL_CHARS_PATTERN : regex :=
  Plus (Chr (in_ranges [(19968, 40959); (1536, 1791)]%N)).

Definition _has_special_chars (text : str) : bool :=
  re_search SPECIAL_CHARS_PATTERN text.

(** [А-Яа-яё] and [а-яё] under [re.IGNORECASE].  The engine lowercases the
    subject character, so both classes accept the 66 Russian letters; it
    also accepts the seven historic variants U+1C80..U+1C86 that share an
    uppercase with one of them. *)
Definition cyrillic_ic (c : N) : bool :=
  in_ranges [(1040, 1103); (1025, 1025); (1105, 1105); (7296, 7302)]%N c.

(** [А-Яа-яё]+(\d+) with IGNORECASE *)
Definition pattern1 : regex := seq [Plus (Chr cyrillic_ic); Group 1 (Plus digit)].

(** [а-яё][,\.;:]\s*(\d+) with IGNORECASE *)
Definition pattern2 : regex :=
  seq [Chr cyrillic_ic; cls ",\.;:"; Star ws; Group 1 (Plus digit)].

(** ^(\d+)\s+[А-Яа-яё] *)
Definition definition_pattern : regex :=
  seq [Bol; Group 1 (Plus digit); Plus ws; cls "А-Яа-яё"].

(** The test applied to each captured marker before [text_footnote_refs.add]. *)
Definition keep_ref (footnote_num : str) : bool :=
  (length footnote_num <=? 2) &&
  negb ((length footnote_num =? 4) &&
        (startswith footnote_num (U "18") || startswith footnote_num (U "19")
         || startswith footnote_num (U "20"))).

(** Group 1 of every match of [r], in order. *)
Definition captures (r : regex) (text : str) : list str :=
  flat_map (fun m => match group m 1 with Some g => [g] | None => [] end)
           (finditer r text).

Definition text_footnote_refs (text : str) : list str :=
  filter keep_ref (captures pattern1 text) ++ filter keep_ref (captures pattern2 text).

Definition footnote_definitions (text : str) : list str :=
  flat_map (fun line =>
              let line := strip line in
              match line with
              | [] => []
              | _ :: _ =>
                  match re_match definition_pattern line with
                  | Some m => match group m 1 with Some g => [g] | None => [] end
                  | None => []
                  end
              end)
           (split_char 10 text).

Definition str_mem (x : str) (l : list str) : bool := existsb (str_eqb x) l.

(** [text_footnote_refs.intersection(footnote_definitions)] *)
Definition matched_footnotes (text : str) : list str :=
  filter (fun n => str_mem n (footnote_definitions text)) (text_footnote_refs text).

Definition _has_footnotes (text : str) : bool :=
  0 <? length (matched_footnotes text).

(* ================================================================= *)
(** ** Numbers *)

(** [float(n)] for a count [n]. *)
Definition pyfloat (n : nat) : float := PrimFloat.of_uint63 (Uint63.of_Z (Z.of_nat n)).

(** [a / b] on two ints (true division). *)
Definition truediv (a b : nat) : float := PrimFloat.div (pyfloat a) (pyfloat b).

(** The binary64 value that the literal [0.7] denotes. *)
Definition lit_0_7 : float := 0x1.6666666666666p-1%float.

(** The interpreter that runs the code.  The builtin [sum] adds floats
    one after the other up to CPython 3.11 and with a running compensation
    of the rounding error (Neumaier's algorithm) from CPython 3.12 on. *)
Inductive CPython : Type :=
| Before312
| From312.

(** [sum(xs)] over floats up to CPython 3.11: added left to right from [0]. *)
Definition fsum (xs : list float) : float := fold_left PrimFloat.add xs 0%float.

(** The loop of [sum] over floats from CPython 3.12 on: [f_result] is the
    running sum and [c] the compensation. *)
Fixpoint neumaier (xs : list float) (f_result c : float) : float * float :=
  match xs with
  | [] => (f_result, c)
  | x :: tl =>
      let t := PrimFloat.add f_result x in
      let c' := if PrimFloat.leb (PrimFloat.abs x) (PrimFloat.abs f_result)
                then PrimFloat.add c (PrimFloat.add (PrimFloat.sub f_result t) x)
                else PrimFloat.add c (PrimFloat.add (PrimFloat.sub x t) f_result) in
      neumaier tl t c'
  end.

(** [sum(xs)] over floats from CPython 3.12 on: the first float is added to
    the int [0], the others enter the compensated loop, and the
    compensation is added at the end when it is finite and not zero. *)
Definition fsum_compensated (xs : list float) : float :=
  match xs with
  | [] => 0%float
  | x :: tl =>
      let (f_result, c) := neumaier tl (PrimFloat.add 0%float x) 0%float in
      if negb (PrimFloat.is_zero c) && PrimFloat.is_finite c
      then PrimFloat.add f_result c
      else f_result
  end.

(** [sum(xs)] over floats, as the interpreter [py] computes it. *)
Definition builtin_sum (py : CPython) (xs : list float) : float :=
  match py with
  | Before312 => fsum xs
  | From312 => fsum_compensated xs
  end.

Definition nsum (xs : list nat) : nat := fold_left Nat.add xs 0.

(* ================================================================= *)
(** ** Table validity classifier *)

(** A grid as [extract_tables] returns it: rows of optional cell texts. *)
Definition Cell := option str.
Definition Row := list Cell.
Definition Table := list Row.

(** [cell and cell.strip()] *)
Definition cell_filled (cell : Cell) : bool :=
  match cell with
  | Some s => truthy cell && truthy (Some (strip s))
  | None => false
  end.

(** [str(cell)] for a cell that holds text. *)
Definition cell_text (cell : Cell) : str :=
  match cell with
  | Some s => s
  | None => U "None"
  end.

Definition all_cells (table : Table) : list Cell := concat table.

Definition n_rows (table : Table) : nat := length table.

(** [len(table[0]) if table[0] else 0] *)
Definition n_cols (table : Table) : nat :=
  match table with
  | row0 :: _ => length row0
  | [] => 0
  end.

(** Criterion 2: the first two cells of the first row, when both hold text,
    are equal or one contains the other. *)
Definition duplicate_content (table : Table) : bool :=
  match table with
  | (first_cell :: second_cell :: _) :: _ =>
      match first_cell, second_cell with
      | Some a, Some b =>
          truthy first_cell && truthy second_cell
          && (str_eqb a b || (str_in a b || str_in b a))
      | _, _ => false
      end
  | _ => false
  end.

Definition total_cells (table : Table) : nat := length (all_cells table).

Definition non_empty_cells (table : Table) : nat :=
  length (filter cell_filled (all_cells table)).

(** [set.add] on a set kept as a duplicate-free list *)
Definition set_add (x : str) (s : list str) : list str :=
  if str_mem x s then s else s ++ [x].

Definition unique_values (table : Table) : list str :=
  fold_left (fun acc cell => if cell_filled cell then set_add (strip (cell_text cell)) acc else acc)
            (all_cells table) [].

(** No row has text in column [col_idx]. *)
Definition column_empty (table : Table) (col_idx : nat) : bool :=
  forallb (fun row => negb (cell_filled (nth col_idx row None))) table.

Definition empty_columns (table : Table) : nat :=
  length (filter (column_empty table) (List.seq 0 (n_cols table))).

(** [cell and any(char.isdigit() for char in cell)] *)
Definition cell_numeric (cell : Cell) : bool :=
  match cell with
  | Some s => truthy cell && existsb isdigit s
  | None => false
  end.

Definition numeric_cells (table : Table) : nat :=
  length (filter cell_numeric (all_cells table)).

(** [" ".join([str(cell) for row in table for cell in row if cell])] *)
Definition all_text (table : Table) : str :=
  join (U " ") (map cell_text (filter truthy (all_cells table))).

Definition tabular_words : list str :=
  map U [ "№"; "номер"; "количество"; "сумма"; "итого"; "всего";
          "тип"; "вид"; "название"; "наименование"; "характеристика";
          "описание"; "значение"; "параметр"; "критерий"; "фактор";
          "аспект"; "влияние"; "воздействие"; "категория"; "группа";
          "показатель"; "индикатор"; "метод"; "способ"; "форма" ]%string.

Definition b2n (b : bool) : nat := if b then 1 else 0.

(** Criterion 6 *)
Definition table_indicators (table : Table) : nat :=
  b2n (existsb (fun word => str_in word (lower (all_text table))) tabular_words)
  + b2n (3 <=? numeric_cells table)
  + b2n (PrimFloat.leb (pyfloat (length (unique_values table)))
                       (PrimFloat.mul (pyfloat (n_rows table)) lit_0_7)).

(** [sum(len(str(cell)) for row in table for cell in row if cell) / non_empty_cells] *)
Definition avg_cell_length (table : Table) : float :=
  truediv (nsum (map (fun cell => length (cell_text cell)) (filter truthy (all_cells table))))
          (non_empty_cells table).

(** Criterion 7 *)
Definition text_indicators (table : Table) : nat :=
  b2n ((length (unique_values table) =? non_empty_cells table)
       && (5 <? non_empty_cells table)
       && (let combined := join (U " ") (unique_values table) in
           PrimFloat.ltb 3%float
             (truediv (length (split_ws combined)) (length (unique_values table)))))
  + b2n ((0 <? empty_columns table) && (0 <? non_empty_cells table)
         && PrimFloat.ltb 50%float (avg_cell_length table)).

Definition filled_cells_per_row (table : Table) : list nat :=
  map (fun row => length (filter cell_filled row)) table.

(** Criterion 8: [variance / avg_filled > 2].  The square [d ** 2] is the
    correctly rounded product [d * d], which is what the C library's [pow]
    returns for the exponent 2. *)
Definition uneven_rows (py : CPython) (table : Table) : bool :=
  let filled := filled_cells_per_row table in
  match filled with
  | [] => false
  | _ :: _ =>
      let avg_filled := truediv (nsum filled) (length filled) in
      if PrimFloat.ltb 0%float avg_filled then
        let variance :=
          PrimFloat.div
            (builtin_sum py
               (map (fun x => let d := PrimFloat.sub (pyfloat x) avg_filled in
                              PrimFloat.mul d d) filled))
            (pyfloat (length filled)) in
        PrimFloat.ltb 2%float (PrimFloat.div variance avg_filled)
      else false
  end.

(** Lengths of the first and second cell of the rows in which both hold text. *)
Definition first_col_lengths (table : Table) : list nat :=
  flat_map (fun row => match row with
                       | c0 :: c1 :: _ => if truthy c0 && truthy c1 then [length (cell_text c0)] else []
                       | _ => []
                       end) table.

Definition second_col_lengths (table : Table) : list nat :=
  flat_map (fun row => match row with
                       | c0 :: c1 :: _ => if truthy c0 && truthy c1 then [length (cell_text c1)] else []
                       | _ => []
                       end) table.

(** The test inside rule 4: short terms in the first column, descriptions
    more than twice as long in the second. *)
Definition term_description_shape (table : Table) : bool :=
  match first_col_lengths table, second_col_lengths table with
  | _ :: _, _ :: _ =>
      let avg_first := truediv (nsum (first_col_lengths table)) (length (first_col_lengths table)) in
      let avg_second := truediv (nsum (second_col_lengths table)) (length (second_col_lengths table)) in
      PrimFloat.ltb (PrimFloat.mul avg_first 2%float) avg_second
      && PrimFloat.ltb avg_first 100%float
  | _, _ => false
  end.

(** Criterion 1: [rows < 2 or cols < 2] *)
Definition too_small (table : Table) : bool :=
  (n_rows table <? 2) || (n_cols table <? 2).

(** Criterion 3: [total_cells > 0 and (non_empty_cells / total_cells) < 0.5] *)
Definition sparse (table : Table) : bool :=
  (0 <? total_cells table)
  && PrimFloat.ltb (truediv (non_empty_cells table) (total_cells table)) 0.5%float.

(** Criterion 4: [empty_columns >= cols / 2] *)
Definition half_columns_empty (table : Table) : bool :=
  PrimFloat.leb (truediv (n_cols table) 2) (pyfloat (empty_columns table)).

Definition _is_valid_table (py : CPython) (table : Table) (page_text : str) : bool :=
  match table with
  | [] => false
  | _ :: _ =>
      if too_small table then false
      else if duplicate_content table then false
      else if sparse table then false
      else if half_columns_empty table then false
      else if uneven_rows py table then false
      (* final decision *)
      else if (2 <=? table_indicators table) && (text_indicators table =? 0) then true
      else if (table_indicators table =? 0) && (0 <? text_indicators table) then false
      else if (0 <? numeric_cells table) && (empty_columns table =? 0) then true
      else if (1 <=? table_indicators table) && (empty_columns table =? 0)
              && (2 <=? n_rows table) && (n_cols table =? 2)
      then term_description_shape table
      else false
  end.

(* ================================================================= *)
(** ** Exceptions and the external libraries *)

(** Outcome of a call that may raise; [Raise] carries [str(e)]. *)
Inductive exc (A : Type) : Type :=
| Ok (a : A)
| Raise (msg : str).

Arguments Ok {A} a.
Arguments Raise {A} msg.

(** A decoded picture (what [Image.open] returns), opaque here. *)
Definition PILImage := N.

(** An element of the list that [Pix2Text.recognize] returns. *)
Inductive Region : Type :=
| RegionOther                                      (* not a dict *)
| RegionDict (type : option str) (text : option str). (* res.get('type'), the 'text' entry *)

Record Pix2Text : Type := { recognize : PILImage -> exc (list Region) }.

(** An entry of [page.get_images(full=True)]; [extract_image] stands for
    [doc.extract_image(xref)], [Image.open] and the conversion to RGB. *)
Record ImageInfo : Type := { xref : N; extract_image : exc PILImage }.

Record FitzPage : Type :=
  { get_text : exc str;                    (* page.get_text("text") *)
    get_images : exc (list ImageInfo) }.   (* page.get_images(full=True) *)

Record PlumberPage : Type := { extract_tables : exc (list Table) }.

(** [doc[i]] may raise for a page that cannot be loaded. *)
Definition FitzDoc := list (exc FitzPage).
Definition PlumberPdf := list PlumberPage.

Record Document : Type :=
  { fitz_open : exc FitzDoc;           (* fitz.open(self.file_path) *)
    plumber_open : exc PlumberPdf }.   (* pdfplumber.open(self.file_path) *)

(* ================================================================= *)
(** ** Detectors over the page objects *)

Definition opt_str_eqb (a : option str) (b : str) : bool :=
  match a with
  | Some x => str_eqb x b
  | None => false
  end.

(** The loop over [results] in [_image_has_formulas]. *)
Fixpoint results_have_formula (results : list Region) : bool :=
  match results with
  | [] => false
  | res :: tl =>
      match res with
      | RegionDict type text =>
          if opt_str_eqb type (U "formula") then true
          else match text with
               | Some t => if _has_formulas t then true else results_have_formula tl
               | None => results_have_formula tl
               end
      | RegionOther => results_have_formula tl
      end
  end.

(** The loop over [images]: a picture that cannot be extracted or
    recognized is skipped. *)
Fixpoint images_have_formula (model : Pix2Text) (images : list ImageInfo) : bool :=
  match images with
  | [] => false
  | img_info :: tl =>
      match extract_image img_info with
      | Raise _ => images_have_formula model tl
      | Ok pil_image =>
          match recognize model pil_image with
          | Raise _ => images_have_formula model tl
          | Ok results =>
              if results_have_formula results then true else images_have_formula model tl
          end
      end
  end.

(** [self.p2t] is [None] when [get_pix2text_model] raised in [__init__]. *)
Definition init_p2t (get_pix2text_model : exc Pix2Text) : option Pix2Text :=
  match get_pix2text_model with
  | Ok model => Some model
  | Raise _ => None
  end.

Definition _image_has_formulas (p2t : option Pix2Text) (page : FitzPage) : exc bool :=
  match p2t with
  | None => Ok false
  | Some model =>
      match get_images page with
      | Raise e => Raise e
      | Ok images => Ok (images_have_formula model images)
      end
  end.

Definition _has_valid_tables (py : CPython) (plumber_page : PlumberPage) (page_text : str)
  : bool :=
  match extract_tables plumber_page with
  | Raise _ => false
  | Ok tables => existsb (fun table => _is_valid_table py table page_text) tables
  end.

(* ================================================================= *)
(** ** Page classification pipeline *)

(** The detector methods of [PDFAnalyzer], each of which may raise. *)
Record Detectors : Type :=
  { has_formulas : str -> exc bool;
    image_has_formulas : FitzPage -> exc bool;
    has_valid_tables : PlumberPage -> str -> exc bool;
    has_special_chars : str -> exc bool;
    has_footnotes : str -> exc bool }.

(** The methods as [main.py] defines them, for an analyzer whose model is
    [p2t], run by the interpreter [py]. *)
Definition PDFAnalyzer (py : CPython) (p2t : option Pix2Text) : Detectors :=
  {| has_formulas := fun text => Ok (_has_formulas text);
     image_has_formulas := _image_has_formulas p2t;
     has_valid_tables := fun plumber_page page_text =>
                           Ok (_has_valid_tables py plumber_page page_text);
     has_special_chars := fun text => Ok (_has_special_chars text);
     has_footnotes := fun text => Ok (_has_footnotes text) |}.

Definition REASON_PLAIN : str := U "Простой текст".
Definition REASON_FORMULA_TEXT : str := U "Формула (текст)".
Definition REASON_FORMULA_IMAGE : str := U "Формула (изображение)".
Definition REASON_IMAGE : str := U "Изображение".
Definition REASON_TABLE : str := U "Таблица".
Definition REASON_SPECIAL : str := U "Иероглифы/араб. вязь".
Definition REASON_FOOTNOTES : str := U "Текст со сносками".
Definition REASON_ERROR_PREFIX : str := U "Ошибка анализа: ".

(** [try: if cond: return hit  except Exception: log], then the rest. *)
Definition try_stage (A : Type) (cond : exc bool) (hit : A) (otherwise : A) : A :=
  match cond with
  | Ok true => hit
  | Ok false => otherwise
  | Raise _ => otherwise
  end.

Definition nonempty (A : Type) (l : exc (list A)) : exc bool :=
  match l with
  | Ok (_ :: _) => Ok true
  | Ok [] => Ok false
  | Raise e => Raise e
  end.

(** Stage 4, run only [if pdf:]; [pdf.pages[page_index]] raises when
    pdfplumber found fewer pages. *)
Definition tables_stage (self : Detectors) (pdf : option PlumberPdf) (page_index : nat)
                        (page_text : str) : exc bool :=
  match pdf with
  | None => Ok false
  | Some pages =>
      match nth_error pages page_index with
      | None => Raise (U "list index out of range")
      | Some plumber_page => has_valid_tables self plumber_page page_text
      end
  end.

Definition _analyze_single_page (self : Detectors) (doc : FitzDoc) (pdf : option PlumberPdf)
                                (page_index : nat) : Z * str :=
  let default := (1%Z, REASON_PLAIN) in
  match nth_error doc page_index with
  | None | Some (Raise _) => default
  | Some (Ok pymupdf_page) =>
      match get_text pymupdf_page with
      | Raise _ => default
      | Ok page_text =>
          try_stage (has_formulas self page_text) (4%Z, REASON_FORMULA_TEXT)
         (try_stage (image_has_formulas self pymupdf_page) (4%Z, REASON_FORMULA_IMAGE)
         (try_stage (nonempty (get_images pymupdf_page)) (3%Z, REASON_IMAGE)
         (try_stage (tables_stage self pdf page_index page_text) (3%Z, REASON_TABLE)
         (try_stage (has_special_chars self page_text) (2%Z, REASON_SPECIAL)
         (try_stage (has_footnotes self page_text) (2%Z, REASON_FOOTNOTES)
          default)))))
      end
  end.

(* ================================================================= *)
(** ** Pricing, documents and batches *)

(** [PRICING] *)
Definition PRICING : list (Z * Z) := [(4, 34); (3, 25); (2, 21); (1, 9)]%Z.

(** [d[key]]; [None] is a [KeyError]. *)
Fixpoint dict_get (A : Type) (d : list (Z * A)) (key : Z) : option A :=
  match d with
  | [] => None
  | (k, v) :: tl => if Z.eqb k key then Some v else dict_get tl key
  end.

(** A row of [analysis_results]; the dict keys are "Страница", "Вес",
    "Стоимость (руб.)" and "Обоснование". *)
Record ResultRow : Type :=
  { row_page : nat; row_weight : Z; row_cost : Z; row_reason : str }.

(** [str(KeyError(key))] *)
Definition repr_int (z : Z) : str :=
  map N_of_ascii (list_ascii_of_string (DecimalString.NilZero.string_of_int (Z.to_int z))).

(** One iteration of the loop of [analyze]: the rows appended for page
    [i], or the exception that leaves the loop. *)
Definition analyze_page (self : Detectors) (doc : FitzDoc) (pdf : option PlumberPdf)
                        (i : nat) : exc ResultRow :=
  let page_num := i + 1 in
  let (page_weight, reason) := _analyze_single_page self doc pdf i in
  match dict_get PRICING page_weight with
  | Some cost =>
      Ok {| row_page := page_num; row_weight := page_weight;
            row_cost := cost; row_reason := reason |}
  | None =>
      (* except Exception as page_error *)
      match dict_get PRICING 1 with
      | Some cost1 =>
          Ok {| row_page := page_num; row_weight := 1; row_cost := cost1;
                row_reason := REASON_ERROR_PREFIX ++ firstn 50 (repr_int page_weight) |}
      | None => Raise (repr_int 1)
      end
  end.

Fixpoint analyze_pages (self : Detectors) (doc : FitzDoc) (pdf : option PlumberPdf)
                       (indices : list nat) (analysis_results : list ResultRow)
  : exc (list ResultRow) :=
  match indices with
  | [] => Ok analysis_results
  | i :: tl =>
      match analyze_page self doc pdf i with
      | Ok row => analyze_pages self doc pdf tl (analysis_results ++ [row])
      | Raise e => Raise e
      end
  end.

(** [analyze]: [analysis_results] is the list held by the analyzer when the
    method is called ([[]] after [__init__]). *)
Definition analyze (self : Detectors) (file : Document) (analysis_results : list ResultRow)
  : exc (list ResultRow) :=
  match fitz_open file with
  | Raise e => Raise (U "Не удалось открыть файл с PyMuPDF: " ++ e)
  | Ok doc =>
      let pdf := match plumber_open file with
                 | Ok p => Some p
                 | Raise _ => None
                 end in
      let num_pages := length doc in
      analyze_pages self doc pdf (List.seq 0 num_pages) analysis_results
  end.

(** [df["Стоимость (руб.)"].sum()] *)
Definition sum_costs (df : list ResultRow) : Z :=
  fold_left Z.add (map row_cost df) 0%Z.

(** An entry of the dict that [batch_process_directory] returns. *)
Record FileResult : Type :=
  { cost : Z; pages : nat; dataframe : list ResultRow }.

(** A file found in the directory: what [PDFAnalyzer(file_path)] gives and
    the document behind the path. *)
Record BatchFile : Type :=
  { file_path : string; construct : exc Detectors; document : Document }.

(** [results[key] = value] on an insertion-ordered dict. *)
Fixpoint dict_set (A : Type) (d : list (string * A)) (key : string) (value : A)
  : list (string * A) :=
  match d with
  | [] => [(key, value)]
  | (k, v) :: tl =>
      if String.eqb k key then (k, value) :: tl else (k, v) :: dict_set tl key value
  end.

Record BatchState : Type :=
  { results : list (string * FileResult);
    total_cost : Z;
    successful_files : nat;
    failed_files : nat }.

Definition batch_failed (st : BatchState) : BatchState :=
  {| results := results st; total_cost := total_cost st;
     successful_files := successful_files st; failed_files := S (failed_files st) |}.

(** The body of the loop over [files]. *)
Definition batch_step (st : BatchState) (f : BatchFile) : BatchState :=
  match construct f with
  | Raise _ => batch_failed st
  | Ok analyzer =>
      match analyze analyzer (document f) [] with
      | Raise _ => batch_failed st
      | Ok df =>
          match df with
          | [] => batch_failed st
          | _ :: _ =>
              let file_cost := sum_costs df in
              {| results := dict_set (results st) (file_path f)
                              {| cost := file_cost; pages := length df; dataframe := df |};
                 total_cost := (total_cost st + file_cost)%Z;
                 successful_files := S (successful_files st);
                 failed_files := failed_files st |}
          end
      end
  end.

(** [batch_process_directory], from the sorted list of files on; the
    returned record holds the dict and the totals that the function prints. *)
Definition batch_process_directory (files : list BatchFile) : BatchState :=
  fold_left batch_step files
            {| results := []; total_cost := 0; successful_files := 0; failed_files := 0 |}.

(* ================================================================= *)
(** ** Vocabulary of the statements *)

(** What the loop of [(Chr p)*] computes, by recursion on the subject: the
    longest run of [p]-characters first, then shorter ones. *)
Fixpoint greedy_chr (R : Type) (p : N -> bool) (k : cont R)
                    (ps : nat) (pv : option N) (l : str) (c : caps) : option R :=
  match l with
  | x :: tl =>
      if p x
      then match greedy_chr p k (S ps) (Some x) tl c with
           | Some v => Some v
           | None => k {| pos := ps; prev := pv; rest := l |} c
           end
      else k {| pos := ps; prev := pv; rest := l |} c
  | [] => k {| pos := ps; prev := pv; rest := [] |} c
  end.

(** The character before the end of [pre], or [pv] when [pre] is empty. *)
Definition last_char (pre : str) (pv : option N) : option N :=
  match rev pre with
  | x :: _ => Some x
  | [] => pv
  end.

(** Two entries of [FORMULA_PATTERNS]: function calls and exponents. *)
Definition function_call_pattern : regex := nth 4 FORMULA_PATTERNS Eps.
Definition exponent_pattern : regex := nth 7 FORMULA_PATTERNS Eps.

Definition ascii_digit (c : N) : bool := (48 <=? c)%N && (c <=? 57)%N.






(** [finditer] for a pattern whose attempt at a position is given by [at_]
    (length of the match and text of group 1): the first position where an
    attempt succeeds, and the groups of the successive matches. *)
Section Scanning.
Variable at_ : str -> option (nat * str).


End Scanning.













(** A stage succeeds when its test returns [True]; a stage that raises or
    returns [False] does not. *)
Definition hit (r : exc bool) : bool :=
  match r with
  | Ok b => b
  | Raise _ => false
  end.

(** The page object and its text, when both can be obtained. *)
Definition read_page (doc : FitzDoc) (page_index : nat) : option (FitzPage * str) :=
  match nth_error doc page_index with
  | Some (Ok page) =>
      match get_text page with
      | Ok text => Some (page, text)
      | Raise _ => None
      end
  | _ => None
  end.

Definition raises (A : Type) (r : exc A) : bool :=
  match r with
  | Ok _ => false
  | Raise _ => true
  end.

(** The outcome attached to the first successful stage of an ordered list. *)
Fixpoint first_success (stages : list (bool * (Z * str))) (default : Z * str) : Z * str :=
  match stages with
  | [] => default
  | (b, outcome) :: tl => if b then outcome else first_success tl default
  end.

Fixpoint zsum (xs : list Z) : Z :=
  match xs with
  | [] => 0%Z
  | x :: tl => (x + zsum tl)%Z
  end.

Definition keys (A : Type) (d : list (string * A)) : list string := map fst d.

(** The rows that a fresh analyzer produces for a file of a batch; none
    when the file cannot be analysed. *)
Definition rows_of (f : BatchFile) : list ResultRow :=
  match construct f with
  | Raise _ => []
  | Ok analyzer =>
      match analyze analyzer (document f) [] with
      | Ok df => df
      | Raise _ => []
      end
  end.

(** A recognized region that counts as a formula. *)
Definition region_is_formula (res : Region) : bool :=
  match res with
  | RegionDict type text =>
      opt_str_eqb type (U "formula")
      || match text with Some t => _has_formulas t | None => false end
  | RegionOther => false
  end.

(** A picture that is extracted, recognized and has a formula region. *)
Definition image_matches (model : Pix2Text) (img_info : ImageInfo) : bool :=
  match extract_image img_info with
  | Raise _ => false
  | Ok pil_image =>
      match recognize model pil_image with
      | Raise _ => false
      | Ok results => existsb region_is_formula results
      end
  end.











(** The integers [lo], [lo + 1], ..., [n] of them. *)
Fixpoint zrange (lo : Z) (n : nat) : list Z :=
  match n with
  | O => []
  | S n' => lo :: zrange (lo + 1) n'
  end.

(** The float test of criterion 3 gives the answer of the exact comparison
    of the two counts, for every total from 1 to [bound]. *)
Definition sparse_agrees (bound : nat) : bool :=
  forallb (fun total =>
             forallb (fun filled =>
                        Bool.eqb (PrimFloat.ltb (PrimFloat.div (PrimFloat.of_uint63 (Uint63.of_Z filled))
                                                               (PrimFloat.of_uint63 (Uint63.of_Z total)))
                                                0.5%float)
                                 (2 * filled <? total)%Z)
                     (zrange 0 (S (Z.to_nat total))))
          (zrange 1 bound).

(** The float test of criterion 4 gives the answer of the exact comparison
    of the two counts, for every number of columns up to [bound]. *)
Definition half_agrees (bound : nat) : bool :=
  forallb (fun cols =>
             forallb (fun empty =>
                        Bool.eqb (PrimFloat.leb (PrimFloat.div (PrimFloat.of_uint63 (Uint63.of_Z cols))
                                                               (PrimFloat.of_uint63 (Uint63.of_Z 2)))
                                                (PrimFloat.of_uint63 (Uint63.of_Z empty)))
                                 (cols <=? 2 * empty)%Z)
                     (zrange 0 (S (Z.to_nat cols))))
          (zrange 0 (S bound)).


(* ----------------------------------------------------------------- *)
(** *** Sample inputs *)

Definition always_raise : Detectors :=
  {| has_formulas := fun _ => Raise (U "boom");
     image_has_formulas := fun _ => Raise (U "boom");
     has_valid_tables := fun _ _ => Raise (U "boom");
     has_special_chars := fun _ => Raise (U "boom");
     has_footnotes := fun _ => Raise (U "boom") |}.

Definition sample_model : Pix2Text :=
  {| recognize := fun _ => Ok [RegionDict (Some (U "formula")) None] |}.

(** A page with a formula in its text, a picture and a numeric table. *)
Definition rich_page : FitzPage :=
  {| get_text := Ok (U "u(x,t) = 0");
     get_images := Ok [ {| xref := 7; extract_image := Ok 7%N |} ] |}.

Definition priced_grid : Table :=
  [ [Some (U "№"); Some (U "Сумма")];
    [Some (U "1"); Some (U "10")];
    [Some (U "2"); Some (U "20")] ].

Definition rich_plumber_page : PlumberPage :=
  {| extract_tables := Ok [priced_grid] |}.

(** A page whose picture list cannot be read. *)
Definition broken_images_page : FitzPage :=
  {| get_text := Ok (U "текст"); get_images := Raise (U "bad xref") |}.

Definition formula_image : ImageInfo := {| xref := 7; extract_image := Ok 7%N |}.

(** A page whose text cannot be extracted. *)
Definition unreadable_page : FitzPage :=
  {| get_text := Raise (U "cannot extract text"); get_images := Ok [formula_image] |}.

Definition undecodable_image : ImageInfo :=
  {| xref := 1; extract_image := Raise (U "cannot decode") |}.

(** A document of three pages: a formula in the text, a picture, plain text. *)
Definition picture_page : FitzPage :=
  {| get_text := Ok (U "Рисунок"); get_images := Ok [formula_image] |}.

Definition plain_page : FitzPage :=
  {| get_text := Ok (U "Просто текст"); get_images := Ok [] |}.

Definition three_pages : Document :=
  {| fitz_open := Ok [Ok rich_page; Ok picture_page; Ok plain_page];
     plumber_open := Raise (U "no pdfplumber") |}.

Definition one_page : Document :=
  {| fitz_open := Ok [Ok plain_page]; plumber_open := Ok [ {| extract_tables := Ok [] |} ] |}.

Definition file_a : BatchFile :=
  {| file_path := "a.pdf"; construct := Ok (PDFAnalyzer From312 None); document := three_pages |}.

Definition file_b : BatchFile :=
  {| file_path := "b.pdf"; construct := Ok (PDFAnalyzer From312 None); document := one_page |}.











(** A row of sixteen columns whose first [n] cells hold one character each. *)
Definition filled_row (n : nat) : Row :=
  map (fun j => Some [N.of_nat (49 + j)]) (List.seq 0 n) ++ repeat None (16 - n).


(** Nine rows whose fill counts have a variance of exactly twice their mean. *)
Definition boundary_grid : Table :=
  map filled_row [2; 13; 12; 5; 6; 12; 16; 15; 12].

(** Pages that the later stages classify. *)
Definition chinese_page : FitzPage :=
  {| get_text := Ok (U "价格表"); get_images := Ok [] |}.

Definition footnote_page : FitzPage :=
  {| get_text := Ok (U "Иванов3
3 Пояснение…"); get_images := Ok [] |}.

(** A page of plain words above a priced table, without pictures. *)
Definition table_page : FitzPage :=
  {| get_text := Ok (U "Смета работ"); get_images := Ok [] |}.


(* ================================================================= *)
(** * Properties *)

Unset Implicit Arguments.

(** ** The pipeline *)

Lemma try_stage_hit (A : Type) (cond : exc bool) (x y : A) :
  try_stage cond x y = if hit cond then x else y.
Proof. destruct cond as [[|]|]; reflexivity. Qed.

Lemma try_stage_raises (A : Type) (cond : exc bool) (x y : A) :
  raises cond = true -> try_stage cond x y = y.
Proof. destruct cond as [[|]|]; simpl; congruence. Qed.

(** The weight returned for a page is one of the four tiers, whatever the
    detectors do. *)
Lemma single_page_weight (self : Detectors) (doc : FitzDoc) (pdf : option PlumberPdf) (i : nat) :
  In (fst (_analyze_single_page self doc pdf i)) [1; 2; 3; 4]%Z.
Proof.
  unfold _analyze_single_page.
  destruct (nth_error doc i) as [[pg|]|]; simpl; auto.
  destruct (get_text pg) as [text|]; simpl; auto.
  rewrite !try_stage_hit.
  repeat match goal with
         | |- context [if ?b then _ else _] => destruct b
         end; simpl; auto 6.
Qed.

(** Membership of a term that stands in the list as written. *)
Ltac pick_member :=
  match goal with
  | |- In ?x (?y :: _) => first [constr_eq x y; left; exact eq_refl | right; pick_member]
  end.

(** The reason returned for a page is one of the seven labels of the
    pipeline. *)
Lemma single_page_reason (self : Detectors) (doc : FitzDoc) (pdf : option PlumberPdf) (i : nat) :
  In (snd (_analyze_single_page self doc pdf i))
     [REASON_FORMULA_TEXT; REASON_FORMULA_IMAGE; REASON_IMAGE; REASON_TABLE;
      REASON_SPECIAL; REASON_FOOTNOTES; REASON_PLAIN].
Proof.
  unfold _analyze_single_page.
  destruct (nth_error doc i) as [[pg|]|]; cbn [snd]; try pick_member.
  destruct (get_text pg) as [text|]; cbn [snd]; try pick_member.
  rewrite !try_stage_hit.
  repeat match goal with
         | |- context [if ?b then _ else _] => destruct b
         end; cbn [snd]; pick_member.
Qed.

(** [PRICING[page_weight]] never raises [KeyError] in [analyze]: the row of
    a page is the one built in the [try] branch. *)
Lemma analyze_page_ok (self : Detectors) (doc : FitzDoc) (pdf : option PlumberPdf) (i : nat) :
  exists cost,
    dict_get PRICING (fst (_analyze_single_page self doc pdf i)) = Some cost /\
    analyze_page self doc pdf i =
      Ok {| row_page := i + 1;
            row_weight := fst (_analyze_single_page self doc pdf i);
            row_cost := cost;
            row_reason := snd (_analyze_single_page self doc pdf i) |}.
Proof.
  unfold analyze_page.
  pose proof (single_page_weight self doc pdf i) as Hw.
  destruct (_analyze_single_page self doc pdf i) as [w reason]; simpl in *.
  destruct Hw as [<-|[<-|[<-|[<-|[]]]]]; simpl; eexists; split; reflexivity.
Qed.

Lemma analyze_pages_ok (self : Detectors) (doc : FitzDoc) (pdf : option PlumberPdf)
      (indices : list nat) (acc : list ResultRow) :
  exists rows,
    analyze_pages self doc pdf indices acc = Ok (acc ++ rows) /\
    map row_page rows = map (fun i => i + 1) indices /\
    Forall (fun r => In (row_weight r) [1; 2; 3; 4]%Z /\
                     dict_get PRICING (row_weight r) = Some (row_cost r) /\
                     exists i, (row_weight r, row_reason r) = _analyze_single_page self doc pdf i)
           rows.
Proof.
  revert acc. induction indices as [|i tl IH]; intros acc; simpl.
  - exists []. rewrite app_nil_r. repeat split; constructor.
  - destruct (analyze_page_ok self doc pdf i) as (cost & Hcost & ->).
    destruct (IH (acc ++ [ {| row_page := i + 1;
                              row_weight := fst (_analyze_single_page self doc pdf i);
                              row_cost := cost;
                              row_reason := snd (_analyze_single_page self doc pdf i) |} ]))
      as (rows & Hrun & Hpages & Hall).
    eexists (_ :: rows). rewrite Hrun, <- app_assoc. simpl.
    split; [reflexivity|]. split; [now rewrite Hpages|].
    constructor; [|exact Hall]. simpl.
    split; [apply single_page_weight|]. split; [exact Hcost|].
    exists i. now destruct (_analyze_single_page self doc pdf i).
Qed.

Lemma seq_shift_succ (n : nat) : map (fun i => i + 1) (List.seq 0 n) = List.seq 1 n.
Proof.
  rewrite <- seq_shift. apply map_ext. intros; lia.
Qed.

(** The image stages find nothing on a page without pictures. *)
Lemma no_picture_no_image_formula (p2t : option Pix2Text) (page : FitzPage) :
  get_images page = Ok [] -> _image_has_formulas p2t page = Ok false.
Proof.
  intros H. unfold _image_has_formulas. destruct p2t as [model|]; [|reflexivity].
  rewrite H. reflexivity.
Qed.

(** C1.  The pipeline returns the outcome of the first stage that succeeds
    in the order formula in text, formula in image, any image, valid table,
    special script, footnotes, and the default (tier 1, plain text)
    otherwise; the stages run on a page whose object and text were
    obtained, and a page for which they were not gets the default.  For the
    analyzer of [main.py] the stages are its detectors: the formula text
    detector, the formula image detector, a non-empty picture list, a grid
    among the tables that pdfplumber extracts from the page of the same
    index that [_is_valid_table] accepts, the special-script detector and
    the footnote detector.  A text that satisfies the formula text detector
    gives tier 4 whatever tables or pictures the page holds; a page without
    formula and pictures that holds a valid table gives tier 3 with the
    label of tables. *)
Theorem pipeline_first_success
        (self : Detectors) (py : CPython) (doc : FitzDoc) (pdf : option PlumberPdf) (i : nat) :
  _analyze_single_page self doc pdf i =
    match read_page doc i with
    | Some (page, text) =>
        first_success
          [ (hit (has_formulas self text), (4%Z, REASON_FORMULA_TEXT));
            (hit (image_has_formulas self page), (4%Z, REASON_FORMULA_IMAGE));
            (hit (nonempty (get_images page)), (3%Z, REASON_IMAGE));
            (hit (tables_stage self pdf i text), (3%Z, REASON_TABLE));
            (hit (has_special_chars self text), (2%Z, REASON_SPECIAL));
            (hit (has_footnotes self text), (2%Z, REASON_FOOTNOTES)) ]
          (1%Z, REASON_PLAIN)
    | None => (1%Z, REASON_PLAIN)
    end
  /\ (forall p2t,
         _analyze_single_page (PDFAnalyzer py p2t) doc pdf i =
           match read_page doc i with
           | Some (page, text) =>
               first_success
                 [ (_has_formulas text, (4%Z, REASON_FORMULA_TEXT));
                   (hit (_image_has_formulas p2t page), (4%Z, REASON_FORMULA_IMAGE));
                   (hit (nonempty (get_images page)), (3%Z, REASON_IMAGE));
                   (match pdf with
                    | Some pages =>
                        match nth_error pages i with
                        | Some plumber_page =>
                            match extract_tables plumber_page with
                            | Ok tables =>
                                existsb (fun table => _is_valid_table py table text) tables
                            | Raise _ => false
                            end
                        | None => false
                        end
                    | None => false
                    end, (3%Z, REASON_TABLE));
                   (_has_special_chars text, (2%Z, REASON_SPECIAL));
                   (_has_footnotes text, (2%Z, REASON_FOOTNOTES)) ]
                 (1%Z, REASON_PLAIN)
           | None => (1%Z, REASON_PLAIN)
           end)
  /\ (forall page text,
         read_page doc i = Some (page, text) ->
         has_formulas self text = Ok true ->
         _analyze_single_page self doc pdf i = (4%Z, REASON_FORMULA_TEXT))
  /\ (forall page text p2t,
         read_page doc i = Some (page, text) ->
         _has_formulas text = true ->
         _analyze_single_page (PDFAnalyzer py p2t) doc pdf i = (4%Z, REASON_FORMULA_TEXT))
  /\ (forall page text p2t pages plumber_page tables table,
         read_page doc i = Some (page, text) ->
         _has_formulas text = false ->
         get_images page = Ok [] ->
         pdf = Some pages ->
         nth_error pages i = Some plumber_page ->
         extract_tables plumber_page = Ok tables ->
         In table tables ->
         _is_valid_table py table text = true ->
         _analyze_single_page (PDFAnalyzer py p2t) doc pdf i = (3%Z, REASON_TABLE)).
Proof.
  assert (Hstages : forall p2t txt,
             tables_stage (PDFAnalyzer py p2t) pdf i txt =
             Ok (match pdf with
                 | Some pages =>
                     match nth_error pages i with
                     | Some plumber_page =>
                         match extract_tables plumber_page with
                         | Ok tables =>
                             existsb (fun table => _is_valid_table py table txt) tables
                         | Raise _ => false
                         end
                     | None => false
                     end
                 | None => false
                 end) \/
             (exists pages, pdf = Some pages /\ nth_error pages i = None /\
                            raises (tables_stage (PDFAnalyzer py p2t) pdf i txt) = true)).
  { intros p2t txt. unfold tables_stage. destruct pdf as [pages|]; [|now left].
    destruct (nth_error pages i) as [plumber_page|] eqn:E.
    - left. cbn [has_valid_tables PDFAnalyzer]. unfold _has_valid_tables. reflexivity.
    - right. exists pages. now rewrite E. }
  assert (Hconcrete : forall p2t,
             _analyze_single_page (PDFAnalyzer py p2t) doc pdf i =
             match read_page doc i with
             | Some (page, text) =>
                 first_success
                   [ (_has_formulas text, (4%Z, REASON_FORMULA_TEXT));
                     (hit (_image_has_formulas p2t page), (4%Z, REASON_FORMULA_IMAGE));
                     (hit (nonempty (get_images page)), (3%Z, REASON_IMAGE));
                     (match pdf with
                      | Some pages =>
                          match nth_error pages i with
                          | Some plumber_page =>
                              match extract_tables plumber_page with
                              | Ok tables =>
                                  existsb (fun table => _is_valid_table py table text) tables
                              | Raise _ => false
                              end
                          | None => false
                          end
                      | None => false
                      end, (3%Z, REASON_TABLE));
                     (_has_special_chars text, (2%Z, REASON_SPECIAL));
                     (_has_footnotes text, (2%Z, REASON_FOOTNOTES)) ]
                   (1%Z, REASON_PLAIN)
             | None => (1%Z, REASON_PLAIN)
             end).
  { intros p2t. unfold _analyze_single_page, read_page. cbv zeta.
    destruct (nth_error doc i) as [[pg|]|]; [|exact eq_refl..].
    destruct (get_text pg) as [txt|]; [|exact eq_refl].
    rewrite !try_stage_hit. cbn [has_formulas image_has_formulas has_special_chars
                                 has_footnotes PDFAnalyzer hit].
    destruct (Hstages p2t txt) as [-> | (pages & -> & Hnone & _)].
    - unfold first_success, fst, snd, hit. exact eq_refl.
    - unfold tables_stage. rewrite Hnone.
      unfold first_success, fst, snd, hit. exact eq_refl. }
  split; [|split; [exact Hconcrete|split; [|split]]].
  - unfold _analyze_single_page, read_page. cbv zeta.
    destruct (nth_error doc i) as [[pg|]|]; [|exact eq_refl..].
    destruct (get_text pg) as [txt|]; [|exact eq_refl].
    rewrite !try_stage_hit. unfold first_success, fst, snd. exact eq_refl.
  - intros page text Heq Hf. unfold _analyze_single_page. unfold read_page in Heq.
    cbv zeta.
    destruct (nth_error doc i) as [[pg|]|]; [|discriminate Heq..].
    destruct (get_text pg) as [txt|]; [|discriminate Heq].
    injection Heq as <- <-. rewrite Hf. unfold try_stage. exact eq_refl.
  - intros page text p2t Heq Hf. rewrite Hconcrete, Heq.
    unfold first_success, fst, snd. rewrite Hf. exact eq_refl.
  - intros page text p2t pages plumber_page tables table Heq Hf Himg -> Hpage Htabs Hin Hvalid.
    rewrite Hconcrete, Heq, Hpage, Htabs.
    rewrite (no_picture_no_image_formula p2t page Himg), Himg.
    assert (Hex : existsb (fun table => _is_valid_table py table text) tables = true)
      by (apply existsb_exists; now exists table).
    unfold first_success, fst, snd, hit, nonempty. rewrite Hf, Hex. exact eq_refl.
Qed.

Lemma pipeline_first_success_witness :
  _analyze_single_page (PDFAnalyzer From312 (Some sample_model)) [Ok rich_page]
                       (Some [rich_plumber_page]) 0
  = (4%Z, REASON_FORMULA_TEXT)
  /\ hit (nonempty (get_images rich_page)) = true
  /\ _has_valid_tables From312 rich_plumber_page (U "u(x,t) = 0") = true
  /\ _analyze_single_page (PDFAnalyzer From312 (Some sample_model)) [Ok table_page]
                          (Some [rich_plumber_page]) 0
     = (3%Z, REASON_TABLE)
  /\ _analyze_single_page (PDFAnalyzer Before312 None) [Ok table_page]
                          (Some [rich_plumber_page]) 0
     = (3%Z, REASON_TABLE)
  /\ REASON_TABLE = U "Таблица"
  /\ map (_analyze_single_page (PDFAnalyzer From312 (Some sample_model))
                               [Ok picture_page; Ok chinese_page; Ok footnote_page;
                                Ok plain_page]
                               None) [0; 1; 2; 3]
     = [(4%Z, U "Формула (изображение)"); (2%Z, U "Иероглифы/араб. вязь");
        (2%Z, U "Текст со сносками"); (1%Z, U "Простой текст")]
  /\ _analyze_single_page (PDFAnalyzer From312 None) [Ok picture_page] None 0
     = (3%Z, U "Изображение").
Proof.
  assert (Hformula : _has_formulas (U "u(x,t) = 0") = true) by (vm_compute; reflexivity).
  assert (Hplain : _has_formulas (U "Смета работ") = false) by (vm_compute; reflexivity).
  assert (Hnew : _is_valid_table From312 priced_grid (U "Смета работ") = true)
    by (vm_compute; reflexivity).
  assert (Hold : _is_valid_table Before312 priced_grid (U "Смета работ") = true)
    by (vm_compute; reflexivity).
  split; [|split; [|split; [|split; [|split; [|split; [|split]]]]]];
    [| | | | |vm_compute; reflexivity..].
  - exact (proj1 (proj2 (proj2 (proj2
             (pipeline_first_success always_raise From312 [Ok rich_page]
                                     (Some [rich_plumber_page]) 0))))
             rich_page (U "u(x,t) = 0") (Some sample_model) eq_refl Hformula).
  - reflexivity.
  - vm_compute. reflexivity.
  - exact (proj2 (proj2 (proj2 (proj2
             (pipeline_first_success always_raise From312 [Ok table_page]
                                     (Some [rich_plumber_page]) 0))))
             table_page (U "Смета работ") (Some sample_model) [rich_plumber_page]
             rich_plumber_page [priced_grid] priced_grid
             eq_refl Hplain eq_refl eq_refl eq_refl eq_refl (or_introl eq_refl) Hnew).
  - exact (proj2 (proj2 (proj2 (proj2
             (pipeline_first_success always_raise Before312 [Ok table_page]
                                     (Some [rich_plumber_page]) 0))))
             table_page (U "Смета работ") None [rich_plumber_page]
             rich_plumber_page [priced_grid] priced_grid
             eq_refl Hplain eq_refl eq_refl eq_refl eq_refl (or_introl eq_refl) Hold).
Defined.

(** C2.  A document that opens gets exactly one row per page, numbered
    1..n in order, each with a tier among 1, 2, 3, 4 and the price of that
    tier, whatever the detectors and the page loads do (raise included). *)
Theorem analyze_one_row_per_page
        (self : Detectors) (doc : FitzDoc) (plumber : exc PlumberPdf) :
  exists rows,
    analyze self {| fitz_open := Ok doc; plumber_open := plumber |} [] = Ok rows /\
    map row_page rows = List.seq 1 (length doc) /\
    Forall (fun r => In (row_weight r) [1; 2; 3; 4]%Z /\
                     dict_get PRICING (row_weight r) = Some (row_cost r)) rows.
Proof.
  unfold analyze. simpl.
  destruct (analyze_pages_ok self doc
              (match plumber with Ok p => Some p | Raise _ => None end)
              (List.seq 0 (length doc)) []) as (rows & Hrun & Hpages & Hall).
  exists rows. split; [exact Hrun|]. split.
  - rewrite Hpages. apply seq_shift_succ.
  - eapply Forall_impl; [|exact Hall]. simpl. intros r (Hw & Hc & _). now split.
Qed.

Lemma analyze_rows (self : Detectors) (file : Document) (rows : list ResultRow) :
  analyze self file [] = Ok rows ->
  Forall (fun r => In (row_weight r) [1; 2; 3; 4]%Z /\
                   dict_get PRICING (row_weight r) = Some (row_cost r) /\
                   In (row_reason r)
                      [REASON_FORMULA_TEXT; REASON_FORMULA_IMAGE; REASON_IMAGE; REASON_TABLE;
                       REASON_SPECIAL; REASON_FOOTNOTES; REASON_PLAIN]) rows.
Proof.
  unfold analyze. destruct (fitz_open file) as [doc|e]; [|discriminate].
  set (pdf := match plumber_open file with Ok p => Some p | Raise _ => None end).
  destruct (analyze_pages_ok self doc pdf (List.seq 0 (length doc)) [])
    as (rows' & Hrun & _ & Hall).
  rewrite Hrun. simpl. intros [= <-].
  eapply Forall_impl; [|exact Hall]. simpl.
  intros r (Hw & Hc & i & Hi). repeat split; auto.
  replace (row_reason r) with (snd (_analyze_single_page self doc pdf i))
    by (now rewrite <- Hi).
  apply single_page_reason.
Qed.

(** The row of [analyze] for a page is built in its [try] branch; the
    label that its [except] branch would give is never used. *)
Lemma analysis_error_label_unused
      (self : Detectors) (doc : FitzDoc) (pdf : option PlumberPdf) (i : nat) :
  exists row,
    analyze_page self doc pdf i = Ok row /\
    In (row_reason row)
       [REASON_FORMULA_TEXT; REASON_FORMULA_IMAGE; REASON_IMAGE; REASON_TABLE;
        REASON_SPECIAL; REASON_FOOTNOTES; REASON_PLAIN] /\
    forallb (fun label => negb (startswith label REASON_ERROR_PREFIX))
            [REASON_FORMULA_TEXT; REASON_FORMULA_IMAGE; REASON_IMAGE; REASON_TABLE;
             REASON_SPECIAL; REASON_FOOTNOTES; REASON_PLAIN] = true.
Proof.
  destruct (analyze_page_ok self doc pdf i) as (cost & _ & Hrow).
  eexists. split; [exact Hrow|]. split; [apply single_page_reason|].
  vm_compute. reflexivity.
Qed.

(** C3.  When the page or its text cannot be obtained, or when every stage
    raises, the page is reported with tier 1 and the label of an ordinary
    plain-text page: the row is the one of the [try] branch of [analyze],
    not the one of its [except] branch. *)
Theorem all_stages_raise_plain_reason
        (self : Detectors) (doc : FitzDoc) (pdf : option PlumberPdf) (i : nat)
        (Hfail : read_page doc i = None \/
                 exists page text,
                   read_page doc i = Some (page, text) /\
                   raises (has_formulas self text) = true /\
                   raises (image_has_formulas self page) = true /\
                   raises (get_images page) = true /\
                   raises (tables_stage self pdf i text) = true /\
                   raises (has_special_chars self text) = true /\
                   raises (has_footnotes self text) = true) :
  _analyze_single_page self doc pdf i = (1%Z, REASON_PLAIN) /\
  analyze_page self doc pdf i =
    Ok {| row_page := i + 1; row_weight := 1; row_cost := 9; row_reason := REASON_PLAIN |} /\
  startswith REASON_PLAIN REASON_ERROR_PREFIX = false.
Proof.
  assert (Hres : _analyze_single_page self doc pdf i = (1%Z, REASON_PLAIN)).
  { unfold _analyze_single_page. unfold read_page in Hfail. cbv zeta.
    destruct (nth_error doc i) as [[pg|]|]; [|exact eq_refl..].
    destruct (get_text pg) as [txt|]; [|exact eq_refl].
    destruct Hfail as [Hnone | (page & text & Heq & H1 & H2 & H3 & H4 & H5 & H6)];
      [discriminate Hnone|].
    injection Heq as <- <-.
    assert (H3' : raises (nonempty (get_images pg)) = true)
      by (destruct (get_images pg) as [[|]|]; [discriminate H3..|exact eq_refl]).
    rewrite (try_stage_raises _ _ _ _ H1), (try_stage_raises _ _ _ _ H2),
            (try_stage_raises _ _ _ _ H3'), (try_stage_raises _ _ _ _ H4),
            (try_stage_raises _ _ _ _ H5), (try_stage_raises _ _ _ _ H6).
    exact eq_refl. }
  split; [exact Hres|]. split.
  - unfold analyze_page. rewrite Hres. cbn [dict_get PRICING Z.eqb]. exact eq_refl.
  - vm_compute. reflexivity.
Qed.

Lemma all_stages_raise_plain_reason_witness :
  analyze_page always_raise [Ok broken_images_page] (Some []) 0 =
    Ok {| row_page := 1; row_weight := 1; row_cost := 9; row_reason := REASON_PLAIN |} /\
  analyze_page (PDFAnalyzer From312 None) [Ok unreadable_page] None 0 =
    Ok {| row_page := 1; row_weight := 1; row_cost := 9; row_reason := REASON_PLAIN |}.
Proof.
  assert (Hstages :
            exists page text,
              read_page [Ok broken_images_page] 0 = Some (page, text) /\
              raises (has_formulas always_raise text) = true /\
              raises (image_has_formulas always_raise page) = true /\
              raises (get_images page) = true /\
              raises (tables_stage always_raise (Some []) 0 text) = true /\
              raises (has_special_chars always_raise text) = true /\
              raises (has_footnotes always_raise text) = true).
  { exists broken_images_page, (U "текст").
    repeat apply conj; vm_compute; reflexivity. }
  assert (Hpage : read_page [Ok unreadable_page] 0 = None) by (vm_compute; reflexivity).
  split.
  - exact (proj1 (proj2 (all_stages_raise_plain_reason
                           always_raise [Ok broken_images_page] (Some []) 0
                           (or_intror Hstages)))).
  - exact (proj1 (proj2 (all_stages_raise_plain_reason
                           (PDFAnalyzer From312 None) [Ok unreadable_page] None 0
                           (or_introl Hpage)))).
Defined.

(** ** The matcher *)

Lemma star_loop_chr (R : Type) (p : N -> bool) (k : cont R) (n : nat) :
  forall ps pv l c,
    length l <= n ->
    star_loop (rx (R := R) (Chr p)) k n {| pos := ps; prev := pv; rest := l |} c
    = greedy_chr p k ps pv l c.
Proof.
  induction n as [|n IH]; intros ps pv l c Hlen.
  - destruct l; [reflexivity|simpl in Hlen; lia].
  - destruct l as [|x tl]; [reflexivity|].
    assert (Hlen' : length tl <= n) by (simpl in Hlen; lia).
    specialize (IH (S ps) (Some x) tl c Hlen').
    change (star_loop (rx (Chr p)) k (S n) {| pos := ps; prev := pv; rest := x :: tl |} c)
      with (match (if p x
                   then if length tl <? S (length tl)
                        then star_loop (rx (Chr p)) k n
                                       {| pos := S ps; prev := Some x; rest := tl |} c
                        else None
                   else None)
            with
            | Some v => Some v
            | None => k {| pos := ps; prev := pv; rest := x :: tl |} c
            end).
    cbn [greedy_chr]. destruct (p x); [|reflexivity].
    rewrite (proj2 (Nat.ltb_lt _ _) (Nat.lt_succ_diag_r _)), IH. reflexivity.
Qed.

Lemma rx_star_chr (R : Type) (p : N -> bool) (k : cont R) (s : cursor) (c : caps) :
  rx (Star (Chr p)) s c k = greedy_chr p k (pos s) (prev s) (rest s) c.
Proof.
  destruct s as [ps pv l]. cbn [rx rest pos prev]. now apply star_loop_chr.
Qed.

(** A loop followed by a continuation that cannot fail does not fail. *)
Lemma greedy_chr_total (R : Type) (p : N -> bool) (k : cont R) :
  (forall s c, k s c <> None) ->
  forall l ps pv c, greedy_chr p k ps pv l c <> None.
Proof.
  intros Hk. induction l as [|x tl IH]; intros ps pv c; cbn [greedy_chr]; [apply Hk|].
  destruct (p x); [|apply Hk].
  specialize (IH (S ps) (Some x) c).
  destruct (greedy_chr p k (S ps) (Some x) tl c); [discriminate|contradiction].
Qed.

(** A match at the end of [pre] is found by the search, unless an earlier
    one is. *)
Lemma search_from_app (r : regex) (pre s : str) :
  forall p pv,
    match_here r {| pos := p + length pre; prev := last_char pre pv; rest := s |} <> None ->
    search_from r p pv (pre ++ s) <> None.
Proof.
  induction pre as [|x tl IH]; intros p pv Hm.
  - unfold last_char in Hm. cbn [rev length] in Hm. rewrite Nat.add_0_r in Hm.
    cbn [app]. destruct s as [|y s']; cbn [search_from];
      (destruct (match_here r _); [discriminate | now elim Hm]).
  - cbn [app search_from].
    destruct (match_here r {| pos := p; prev := pv; rest := x :: tl ++ s |}); [discriminate|].
    apply IH. replace (S p + length tl) with (p + length (x :: tl)) by (simpl; lia).
    replace (last_char tl (Some x)) with (last_char (x :: tl) pv); [exact Hm|].
    unfold last_char. cbn [rev]. destruct (rev tl); reflexivity.
Qed.

Lemma re_search_app (r : regex) (pre s : str) :
  (forall p pv, match_here r {| pos := p; prev := pv; rest := s |} <> None) ->
  re_search r (pre ++ s) = true.
Proof.
  intros Hm. unfold re_search.
  pose proof (search_from_app r pre s 0 None (Hm _ _)) as H.
  destruct (search_from r 0 None (pre ++ s)); congruence.
Qed.

Lemma rx_cat (R : Type) (a b : regex) (s : cursor) (c : caps) (k : cont R) :
  rx (Cat a b) s c k = rx a s c (fun s' c' => rx b s' c' k).
Proof. reflexivity. Qed.

Lemma rx_chr (R : Type) (p : N -> bool) (ps : nat) (pv : option N) (x : N) (tl : str)
      (c : caps) (k : cont R) :
  rx (Chr p) {| pos := ps; prev := pv; rest := x :: tl |} c k =
  if p x then k {| pos := S ps; prev := Some x; rest := tl |} c else None.
Proof. reflexivity. Qed.

Lemma rx_alt (R : Type) (a b : regex) (s : cursor) (c : caps) (k : cont R) :
  rx (Alt a b) s c k = match rx a s c k with Some v => Some v | None => rx b s c k end.
Proof. reflexivity. Qed.

(** Decide a test on known characters by computation. *)
Ltac eval_test :=
  match goal with
  | |- context [if ?b then _ else _] =>
      let v := eval vm_compute in b in
      match v with
      | true => replace b with true by (vm_compute; reflexivity)
      | false => replace b with false by (vm_compute; reflexivity)
      end; cbv iota
  end.

(** Run the matcher on the known part of the subject. *)
Ltac rx_eval :=
  repeat first
    [ rewrite rx_cat
    | rewrite rx_chr
    | rewrite rx_star_chr; cbn [pos prev rest greedy_chr]
    | eval_test
    | progress cbv beta iota ].

(** ** The formula text detector *)

Lemma function_call_pattern_eq :
  function_call_pattern =
  Cat (Cat (Chr (cls_match (U "a-zA-Z"))) (Star (Chr (cls_match (U "a-zA-Z")))))
      (Cat (Chr (N.eqb 40))
           (Cat (Cat (Chr (cls_match (U "a-zA-Z0-9,\s")))
                     (Star (Chr (cls_match (U "a-zA-Z0-9,\s")))))
                (Chr (N.eqb 41)))).
Proof. reflexivity. Qed.

Lemma exponent_pattern_eq :
  exponent_pattern =
  Alt (Cat (Chr (N.eqb 94)) (Cat (Chr (cls_match (U "0-9"))) (Star (Chr (cls_match (U "0-9"))))))
      (Cat (Cat (Chr (N.eqb 94)) (Chr (N.eqb 123)))
           (Cat (Cat (Chr (fun c => negb (cls_match (U "}") c)))
                     (Star (Chr (fun c => negb (cls_match (U "}") c)))))
                (Chr (N.eqb 125)))).
Proof. reflexivity. Qed.

(** The function-call pattern matches wherever "u(x,t) = 0" starts. *)
Lemma function_call_matches (ps : nat) (pv : option N) (post : str) :
  match_here function_call_pattern
             {| pos := ps; prev := pv; rest := U "u(x,t) = 0" ++ post |} <> None.
Proof.
  replace (U "u(x,t) = 0") with [117; 40; 120; 44; 116; 41; 32; 61; 32; 48]%N
    by (vm_compute; reflexivity).
  cbn [app]. unfold match_here. rewrite function_call_pattern_eq.
  rx_eval. discriminate.
Qed.

Lemma ascii_digit_cls (d : N) : ascii_digit d = true -> cls_match (U "0-9") d = true.
Proof.
  intros H. change (cls_match (U "0-9") d) with (ascii_digit d || (false || false)).
  rewrite H. reflexivity.
Qed.

(** The exponent pattern matches wherever a caret and a digit start. *)
Lemma exponent_matches (ps : nat) (pv : option N) (d : N) (post : str) :
  ascii_digit d = true ->
  match_here exponent_pattern {| pos := ps; prev := pv; rest := 94%N :: d :: post |} <> None.
Proof.
  intros Hd. unfold match_here. rewrite exponent_pattern_eq, rx_alt.
  rx_eval. rewrite (ascii_digit_cls _ Hd). rx_eval.
  match goal with
  | |- context [greedy_chr ?p ?k ?n ?v ?l ?cs] =>
      assert (Ht : greedy_chr p k n v l cs <> None)
        by (apply greedy_chr_total; discriminate);
      destruct (greedy_chr p k n v l cs); [discriminate|contradiction]
  end.
Qed.

Lemma formula_pattern_found (r : regex) (text : str) :
  In r FORMULA_PATTERNS -> re_search r text = true -> _has_formulas text = true.
Proof.
  intros Hin Hs. unfold _has_formulas. apply orb_true_iff. left.
  apply existsb_exists. exists r. split; [exact Hin|]. now rewrite Hs.
Qed.

(** C9.  A text that contains "u(x,t) = 0" satisfies the detector, and so
    does a text that contains a caret followed by a digit (as in
    "E=mc^2"); the text "ABC-123 каталог" does not. *)
Theorem formula_text_examples :
  (forall pre post, _has_formulas (pre ++ U "u(x,t) = 0" ++ post) = true) /\
  (forall pre post d, ascii_digit d = true ->
                      _has_formulas (pre ++ 94%N :: d :: post) = true) /\
  _has_formulas (U "E=mc^2") = true /\
  _has_formulas (U "ABC-123 каталог") = false.
Proof.
  split; [|split; [|split]].
  - intros pre post. apply (formula_pattern_found function_call_pattern).
    + apply nth_In. vm_compute. repeat constructor.
    + apply re_search_app. intros p pv. apply function_call_matches.
  - intros pre post d Hd. apply (formula_pattern_found exponent_pattern).
    + apply nth_In. vm_compute. repeat constructor.
    + apply re_search_app. intros p pv. now apply exponent_matches.
  - vm_compute. reflexivity.
  - vm_compute. reflexivity.
Qed.

Lemma formula_text_examples_witness :
  _has_formulas (U "Энергия E=mc^2 велика") = true.
Proof.
  exact (proj1 (proj2 formula_text_examples)
               (U "Энергия E=mc") (U " велика") 50%N eq_refl).
Defined.

(** ** The formula image detector *)

Lemma results_have_formula_existsb (results : list Region) :
  results_have_formula results = existsb region_is_formula results.
Proof.
  induction results as [|res tl IH]; [reflexivity|].
  simpl. destruct res as [|type text]; simpl; [exact IH|].
  destruct (opt_str_eqb type (U "formula")); [reflexivity|]. simpl.
  destruct text as [t|]; [|exact IH].
  destruct (_has_formulas t); [reflexivity|exact IH].
Qed.

Lemma images_have_formula_existsb (model : Pix2Text) (images : list ImageInfo) :
  images_have_formula model images = existsb (image_matches model) images.
Proof.
  induction images as [|img tl IH]; [reflexivity|].
  simpl. unfold image_matches at 1.
  destruct (extract_image img) as [im|]; [|exact IH].
  destruct (recognize model im) as [results|]; [|exact IH].
  rewrite results_have_formula_existsb.
  destruct (existsb region_is_formula results); [reflexivity|exact IH].
Qed.

(** C7 (as amended).  Without a model the detector answers [False] for
    every page.  With a model and the page's picture list at hand it
    returns without raising: [True] exactly when some picture is extracted,
    recognized and has a formula region; a picture whose extraction or
    recognition raises is skipped; the first matching picture decides,
    whatever follows it. *)
Theorem image_detector_contract (model : Pix2Text) :
  (forall e page, _image_has_formulas (init_p2t (Raise e)) page = Ok false) /\
  (forall page images,
      get_images page = Ok images ->
      _image_has_formulas (Some model) page = Ok (existsb (image_matches model) images)) /\
  (forall img tl,
      raises (extract_image img) = true \/
      (exists im, extract_image img = Ok im /\ raises (recognize model im) = true) ->
      images_have_formula model (img :: tl) = images_have_formula model tl) /\
  (forall before img after,
      existsb (image_matches model) before = false ->
      image_matches model img = true ->
      images_have_formula model (before ++ img :: after) = true).
Proof.
  repeat split.
  - intros page images Himgs. unfold _image_has_formulas. rewrite Himgs.
    now rewrite images_have_formula_existsb.
  - intros img tl [Hx | (im & Hx & Hr)]; simpl.
    + destruct (extract_image img); [discriminate|reflexivity].
    + rewrite Hx. destruct (recognize model im); [discriminate|reflexivity].
  - intros before img after Hb Hm.
    rewrite images_have_formula_existsb, existsb_app, Hb. simpl. now rewrite Hm.
Qed.

Lemma image_detector_contract_witness :
  _image_has_formulas (Some sample_model) rich_page = Ok true /\
  images_have_formula sample_model [undecodable_image; formula_image] = true.
Proof.
  destruct (image_detector_contract sample_model) as (_ & Hall & Hskip & Hfirst).
  split.
  - rewrite (Hall rich_page _ eq_refl). reflexivity.
  - rewrite (Hskip undecodable_image [formula_image] (or_introl eq_refl)).
    apply (Hfirst [] formula_image [] eq_refl). reflexivity.
Defined.

(** C7 (as stated) fails: a page whose picture list cannot be read makes
    the detector raise. *)
Lemma image_detector_can_raise :
  _image_has_formulas (Some sample_model) broken_images_page = Raise (U "bad xref").
Proof. reflexivity. Qed.

(** ** Pricing and aggregation *)

Lemma fold_left_Zadd (xs : list Z) (a : Z) :
  fold_left Z.add xs a = (a + zsum xs)%Z.
Proof.
  revert a. induction xs as [|x tl IH]; intros a; simpl; [lia|].
  rewrite IH. lia.
Qed.

Lemma sum_costs_zsum (df : list ResultRow) : sum_costs df = zsum (map row_cost df).
Proof. unfold sum_costs. now rewrite fold_left_Zadd. Qed.

Lemma zsum_app (xs ys : list Z) : zsum (xs ++ ys) = (zsum xs + zsum ys)%Z.
Proof. induction xs as [|x tl IH]; simpl; lia. Qed.

Lemma zsum_perm (xs ys : list Z) : Permutation xs ys -> zsum xs = zsum ys.
Proof. induction 1; simpl; lia. Qed.

Lemma batch_step_rows (st : BatchState) (f : BatchFile) :
  total_cost (batch_step st f) = (total_cost st + sum_costs (rows_of f))%Z.
Proof.
  unfold batch_step, rows_of.
  destruct (construct f) as [analyzer|]; [|cbn; lia].
  destruct (analyze analyzer (document f) []) as [[|r df]|]; cbn; lia.
Qed.

Lemma batch_fold_total (files : list BatchFile) (st : BatchState) :
  total_cost (fold_left batch_step files st) =
  (total_cost st + zsum (map (fun f => sum_costs (rows_of f)) files))%Z.
Proof.
  revert st. induction files as [|f tl IH]; intros st; simpl; [lia|].
  rewrite IH, batch_step_rows. lia.
Qed.

Lemma dict_set_fresh (A : Type) (d : list (string * A)) (k : string) (v : A) :
  ~ In k (keys d) -> dict_set d k v = d ++ [(k, v)].
Proof.
  induction d as [|[k' v'] tl IH]; simpl; intros Hk; [reflexivity|].
  destruct (String.eqb_spec k' k) as [->|_]; [tauto|].
  rewrite IH; tauto.
Qed.

(** The keys of the dict are paths of processed files, and with distinct
    paths the costs stored in it add up to [total_cost]. *)
Lemma batch_fold_dict (files : list BatchFile) (st : BatchState) :
  NoDup (keys (results st) ++ map file_path files) ->
  zsum (map (fun e => cost (snd e)) (results (fold_left batch_step files st))) =
  (zsum (map (fun e => cost (snd e)) (results st))
   + zsum (map (fun f => sum_costs (rows_of f)) files))%Z.
Proof.
  revert st. induction files as [|f tl IH]; intros st Hnd; simpl; [lia|].
  assert (Hfresh : ~ In (file_path f) (keys (results st))).
  { intros Hin. apply NoDup_remove_2 in Hnd. apply Hnd.
    apply in_or_app. now left. }
  assert (Hstep :
    (results (batch_step st f) = results st /\ sum_costs (rows_of f) = 0%Z) \/
    (results (batch_step st f) =
       results st ++ [(file_path f, {| cost := sum_costs (rows_of f);
                                       pages := length (rows_of f);
                                       dataframe := rows_of f |})])).
  { unfold batch_step, rows_of.
    destruct (construct f) as [analyzer|]; simpl; [|now left].
    destruct (analyze analyzer (document f) []) as [[|r df]|]; simpl; [now left| |now left].
    right. now rewrite dict_set_fresh by exact Hfresh. }
  destruct Hstep as [[Hr H0] | Hr].
  - rewrite IH.
    + rewrite Hr, H0. lia.
    + rewrite Hr. apply NoDup_remove_1 in Hnd. exact Hnd.
  - rewrite IH.
    + rewrite Hr, map_app, zsum_app. simpl. lia.
    + rewrite Hr. unfold keys in *. rewrite map_app, <- app_assoc. exact Hnd.
Qed.

Lemma zsum_all_pages (files : list BatchFile) :
  zsum (map row_cost (flat_map rows_of files)) =
  zsum (map (fun f => sum_costs (rows_of f)) files).
Proof.
  induction files as [|f tl IH]; simpl; [reflexivity|].
  now rewrite map_app, zsum_app, IH, sum_costs_zsum.
Qed.

(** C8.  A page costs the rate of its tier (4:34, 3:25, 2:21, 1:9); the
    cost of a file is the sum of its pages' costs; the grand total of a
    batch is the sum of the files' costs, which is the sum over all pages of
    all files and the sum of the costs kept in the returned dict; totals do
    not depend on the order of the files or of the rows; pages of tiers
    4, 3, 1 cost 68 together. *)
Theorem batch_total_is_sum_of_pages
        (files files' : list BatchFile)
        (Hdistinct : NoDup (map file_path files))
        (Horder : Permutation files files') :
  PRICING = [(4, 34); (3, 25); (2, 21); (1, 9)]%Z /\
  (forall f r, In r (rows_of f) -> dict_get PRICING (row_weight r) = Some (row_cost r)) /\
  (forall df, sum_costs df = zsum (map row_cost df)) /\
  total_cost (batch_process_directory files) =
    zsum (map (fun f => sum_costs (rows_of f)) files) /\
  total_cost (batch_process_directory files) =
    zsum (map row_cost (flat_map rows_of files)) /\
  total_cost (batch_process_directory files) =
    zsum (map (fun e => cost (snd e)) (results (batch_process_directory files))) /\
  total_cost (batch_process_directory files') = total_cost (batch_process_directory files) /\
  (forall df df', Permutation df df' -> sum_costs df = sum_costs df') /\
  (forall self file df,
      analyze self file [] = Ok df ->
      Permutation (map row_weight df) [4; 3; 1]%Z -> sum_costs df = 68%Z).
Proof.
  assert (Htotal : forall fs, total_cost (batch_process_directory fs) =
                              zsum (map (fun f => sum_costs (rows_of f)) fs)).
  { intros fs. unfold batch_process_directory. rewrite batch_fold_total. simpl. lia. }
  assert (Hpriced : forall f r, In r (rows_of f) ->
                                dict_get PRICING (row_weight r) = Some (row_cost r)).
  { intros f r. unfold rows_of.
    destruct (construct f) as [analyzer|]; [|intros []].
    destruct (analyze analyzer (document f) []) as [df|] eqn:Hrun; [|intros []].
    intros Hin. pose proof (analyze_rows _ _ _ Hrun) as Hall.
    rewrite Forall_forall in Hall. now apply Hall. }
  split; [reflexivity|]. split; [exact Hpriced|]. split; [exact sum_costs_zsum|].
  split; [apply Htotal|]. split.
  { now rewrite Htotal, zsum_all_pages. }
  split.
  { unfold batch_process_directory at 2. rewrite batch_fold_dict; [|exact Hdistinct].
    rewrite Htotal. simpl. lia. }
  split.
  { rewrite !Htotal. symmetry. apply zsum_perm. now apply Permutation_map. }
  split.
  { intros df df' Hp. rewrite !sum_costs_zsum. apply zsum_perm. now apply Permutation_map. }
  intros self file df Hrun Hw.
  pose proof (analyze_rows _ _ _ Hrun) as Hall.
  rewrite sum_costs_zsum.
  assert (Hcost : map row_cost df =
                  map (fun w => match dict_get PRICING w with Some c => c | None => 0%Z end)
                      (map row_weight df)).
  { rewrite map_map. apply map_ext_in. intros r Hin.
    rewrite Forall_forall in Hall. destruct (Hall r Hin) as (_ & -> & _). reflexivity. }
  rewrite Hcost.
  rewrite (zsum_perm _ _ (Permutation_map _ Hw)). reflexivity.
Qed.

Lemma batch_total_is_sum_of_pages_witness :
  total_cost (batch_process_directory [file_b; file_a]) =
  total_cost (batch_process_directory [file_a; file_b]) /\
  sum_costs (rows_of file_a) = 68%Z.
Proof.
  assert (Hd : NoDup (map file_path [file_a; file_b])).
  { repeat constructor; simpl; intuition discriminate. }
  assert (Hp : Permutation [file_a; file_b] [file_b; file_a]) by apply perm_swap.
  destruct (batch_total_is_sum_of_pages _ _ Hd Hp) as (_ & _ & _ & _ & _ & _ & Hswap & _ & H68).
  split; [exact Hswap|].
  apply (H68 (PDFAnalyzer From312 None) three_pages); vm_compute.
  - reflexivity.
  - apply Permutation_refl.
Defined.

(** ** Footnote markers *)

(** C10.  A marker that enters [text_footnote_refs] has at most two
    characters; a token of three or more is dropped whatever its prefix,
    and the test kept by the code is the length test alone: the year test
    never changes its outcome. *)
Theorem footnote_refs_at_most_two_digits (text n : str)
        (Hin : In n (text_footnote_refs text)) :
  length n <= 2 /\
  (forall token, 3 <= length token -> keep_ref token = false) /\
  (forall token, keep_ref token = (length token <=? 2)).
Proof.
  assert (Hkeep : forall token, keep_ref token = (length token <=? 2)).
  { intros token. unfold keep_ref.
    destruct (length token <=? 2) eqn:Hlen; [|reflexivity].
    apply Nat.leb_le in Hlen.
    replace (length token =? 4) with false; [reflexivity|].
    symmetry. apply Nat.eqb_neq. lia. }
  split; [|split].
  - unfold text_footnote_refs in Hin. apply in_app_or in Hin.
    destruct Hin as [Hin|Hin]; apply filter_In in Hin; destruct Hin as [_ Hk];
      rewrite Hkeep in Hk; now apply Nat.leb_le.
  - intros token Hlen. rewrite Hkeep. apply Nat.leb_gt. lia.
  - exact Hkeep.
Qed.

Lemma footnote_refs_at_most_two_digits_witness :
  In (U "3") (text_footnote_refs (U "Иванов3, 1995")) /\ length (U "3") <= 2.
Proof.
  assert (Hin : In (U "3") (text_footnote_refs (U "Иванов3, 1995"))).
  { vm_compute. left. reflexivity. }
  split; [exact Hin|].
  exact (proj1 (footnote_refs_at_most_two_digits _ _ Hin)).
Defined.

(** ** The table classifier *)

Lemma str_eqb_refl (s : str) : str_eqb s s = true.
Proof. induction s as [|c tl IH]; simpl; [reflexivity|]. now rewrite N.eqb_refl. Qed.







Lemma in_zrange (n : nat) : forall lo z, In z (zrange lo n) <-> (lo <= z < lo + Z.of_nat n)%Z.
Proof.
  induction n as [|n IH]; intros lo z; cbn [zrange In].
  - lia.
  - rewrite IH. lia.
Qed.

Lemma sparse_agrees_spec (bound : nat) (filled total : nat) :
  sparse_agrees bound = true ->
  1 <= total <= bound -> filled <= total ->
  PrimFloat.ltb (truediv filled total) 0.5%float = (2 * filled <? total).
Proof.
  intros H Ht Hf. unfold sparse_agrees in H. rewrite forallb_forall in H.
  assert (H1 : In (Z.of_nat total) (zrange 1 bound)) by (apply in_zrange; lia).
  apply H in H1. clear H. rewrite forallb_forall in H1.
  assert (H2 : In (Z.of_nat filled) (zrange 0 (S (Z.to_nat (Z.of_nat total)))))
    by (apply in_zrange; lia).
  apply H1 in H2. apply eqb_prop in H2.
  unfold truediv, pyfloat. rewrite H2.
  destruct (Z.ltb_spec (2 * Z.of_nat filled) (Z.of_nat total));
    symmetry; [apply Nat.ltb_lt | apply Nat.ltb_ge]; lia.
Qed.

Lemma half_agrees_spec (bound : nat) (cols empty : nat) :
  half_agrees bound = true ->
  cols <= bound -> empty <= cols ->
  PrimFloat.leb (truediv cols 2) (pyfloat empty) = (cols <=? 2 * empty).
Proof.
  intros H Hc He. unfold half_agrees in H. rewrite forallb_forall in H.
  assert (H1 : In (Z.of_nat cols) (zrange 0 (S bound))) by (apply in_zrange; lia).
  apply H in H1. clear H. rewrite forallb_forall in H1.
  assert (H2 : In (Z.of_nat empty) (zrange 0 (S (Z.to_nat (Z.of_nat cols)))))
    by (apply in_zrange; lia).
  apply H1 in H2. apply eqb_prop in H2.
  unfold truediv, pyfloat. change (Z.of_nat 2) with 2%Z. rewrite H2.
  destruct (Z.leb_spec (Z.of_nat cols) (2 * Z.of_nat empty));
    symmetry; [apply Nat.leb_le | apply Nat.leb_gt]; lia.
Qed.

Lemma sparse_agrees_2000 : sparse_agrees 2000 = true.
Proof. vm_compute. reflexivity. Qed.

Lemma half_agrees_2000 : half_agrees 2000 = true.
Proof. vm_compute. reflexivity. Qed.

Lemma empty_columns_le (table : Table) : empty_columns table <= n_cols table.
Proof.
  unfold empty_columns.
  pose proof (filter_length_le (column_empty table) (List.seq 0 (n_cols table))) as H.
  now rewrite length_seq in H.
Qed.

Lemma sparse_exact (table : Table) :
  total_cells table <= 2000 ->
  sparse table = (2 * non_empty_cells table <? total_cells table).
Proof.
  intros Hb. unfold sparse.
  assert (Hle : non_empty_cells table <= total_cells table) by apply filter_length_le.
  destruct (Nat.eq_dec (total_cells table) 0) as [E0|Hpos].
  - rewrite E0. reflexivity.
  - replace (0 <? total_cells table) with true by (symmetry; apply Nat.ltb_lt; lia).
    cbn [andb]. apply (sparse_agrees_spec 2000 _ _ sparse_agrees_2000); lia.
Qed.

Lemma half_columns_empty_exact (table : Table) :
  n_cols table <= 2000 ->
  half_columns_empty table = (n_cols table <=? 2 * empty_columns table).
Proof.
  intros Hb. unfold half_columns_empty.
  apply (half_agrees_spec 2000 _ _ half_agrees_2000); [lia|apply empty_columns_le].
Qed.














(** At the boundary the variance test follows the interpreter's [sum]: the
    fill counts 2, 13, 12, 5, 6, 12, 16, 15, 12 have a variance of exactly
    twice their mean; the plain sum of CPython 3.11 rounds the ratio above
    2 and the grid is refused, the compensated sum of CPython 3.12 gives 2
    and the grid is accepted. *)
Lemma variance_boundary_follows_sum :
  map (fun row => length (filter cell_filled row)) boundary_grid
    = [2; 13; 12; 5; 6; 12; 16; 15; 12] /\
  9 * (2*2 + 13*13 + 12*12 + 5*5 + 6*6 + 12*12 + 16*16 + 15*15 + 12*12) - 93 * 93
    = 2 * 9 * 93 /\
  uneven_rows Before312 boundary_grid = true /\
  uneven_rows From312 boundary_grid = false /\
  _is_valid_table Before312 boundary_grid [] = false /\
  _is_valid_table From312 boundary_grid [] = true.
Proof. repeat split; vm_compute; reflexivity. Qed.




(** ** The footnote detector *)




























Section ScanFacts.
Variable at_ : str -> option (nat * str).
Variable r : regex.

Hypothesis Hat : forall ps pv l,
    match_here r {| pos := ps; prev := pv; rest := l |} =
    match at_ l with
    | Some (len, g) => Some {| m_start := ps; m_end := ps + len; m_caps := [(1, g)] |}
    | None => None
    end.
Hypothesis Hlen : forall l len g, at_ l = Some (len, g) -> 0 < len <= length l.
Hypothesis Hov : forall l len g j r',
    at_ l = Some (len, g) -> 0 < j < len -> at_ (skipn j l) = Some r' -> snd r' = g.








End ScanFacts.






















